(** * Telegram data pipeline: read API, orchestration graph and connection retry

  A shallow embedding of
  - [src/crud.py] and [src/main.py] (the FastAPI read API over
    [telegram_schema.fct_messages]),
  - [dagster_pipeline/jobs/telegram_pipeline.py] (the four ops and the graph
    that chains them),
  - [scripts/services/telegram_service.py] ([TelegramService.connect]),
  followed by the properties of the specification that concern them.

  Python values are modelled as follows: [str] as [string] (the bytes of
  its UTF-8 encoding), [int] as [Z], a [dict] as a [gmap], an exception as a
  record carrying its class name, its message ([str(e)]) and its traceback.
  Everything the code reads from outside the process (the table and the
  locale of the database, the file system, a subprocess, the clock, the
  resources of the job, the Telegram client) is an explicit argument.

  Two assumptions are made about the database: its encoding is UTF-8, and
  [lower] works character by character and folds the ASCII letters as
  [str.lower] does (as the C locale and the locales of libc other than the
  Turkic ones do); what it makes of any other character is left open. *)

From Stdlib Require Import ZArith List Ascii String Bool Lia Sorted DecimalString.
From stdpp Require Import gmap strings list.

Local Open Scope string_scope.
Local Open Scope Z_scope.

(** ** Python values shared by all modules *)

Module Py.

Record exn := Exn {
  exn_class : string;
  exn_msg : string;            (* str(e) *)
  exn_traceback : list string  (* the frames attached to the exception *)
}.

(** The outcome of evaluating a Python expression: a value or a raised
    exception. *)
Inductive result (A : Type) : Type :=
| Ok (a : A)
| Raise (e : exn).
Arguments Ok {A} a.
Arguments Raise {A} e.

Definition bind {A B} (r : result A) (k : A -> result B) : result B :=
  match r with
  | Ok a => k a
  | Raise e => Raise e
  end.

#[export] Instance exn_eq_dec : EqDecision exn.
Proof. solve_decision. Defined.

#[export] Instance result_eq_dec {A} `{EqDecision A} : EqDecision (result A).
Proof. solve_decision. Defined.

#[export] Instance result_ret : MRet result := @Ok.
#[export] Instance result_bind : MBind result := fun A B k r => bind r k.

(** Whether [except Exception] catches it.  The classes of the interpreter
    that derive from [BaseException] only are those of a cancelled task
    (from Python 3.8 on), of an interrupt, and of the exit of the
    interpreter or of a generator. *)
Definition is_Exception (e : exn) : bool :=
  negb (bool_decide (exn_class e ∈ ["CancelledError"; "KeyboardInterrupt";
                                    "SystemExit"; "GeneratorExit"])).

(** [i] as a slice bound of a sequence of length [n]: negative bounds count
    from the end, and every bound is clipped to [0, n]. *)
Definition slice_bound (n i : Z) : Z :=
  if i <? 0 then Z.max 0 (i + n) else Z.min i n.

(** [l[start:stop]] *)
Definition slice {A} (l : list A) (start stop : Z) : list A :=
  let n := Z.of_nat (length l) in
  let s := slice_bound n start in
  let e := slice_bound n stop in
  take (Z.to_nat (e - s)) (drop (Z.to_nat s) l).

(** ASCII letter case, as [str.lower] has it on ASCII text; bytes from
    0x80 on are left alone. *)
Definition lower_ascii (c : ascii) : ascii :=
  let n := nat_of_ascii c in
  if ((65 <=? n) && (n <=? 90))%nat then ascii_of_nat (n + 32) else c.

Definition lower (s : list ascii) : list ascii := map lower_ascii s.

End Py.

(** ** [src/crud.py]: the two queries over [telegram_schema.fct_messages] *)

Module Crud.
Import Py.

(** A row of [fct_messages].  [media_date] is a timestamp in seconds;
    [message_text], [media_date] and [has_image] are nullable. *)
Record fct_message := FctMessage {
  message_id : Z;
  channel_id : string;
  message_text : option string;
  media_date : option Z;
  has_image : option bool
}.

(** A character of a UTF-8 text, as its bytes. *)
Abbreviation character := (list ascii).

(** The database session handed to the handlers: the table, the fault
    [db.execute] raises when the database cannot serve the query, and what
    [lower] makes of a character outside ASCII in the locale of the
    database. *)
Record Session := {
  fct_messages : list fct_message;
  execute_fault : option exn;
  lc_lower : character -> character
}.

Definition execute {A} (db : Session) (q : list fct_message -> A) : result A :=
  match execute_fault db with
  | Some e => Raise e
  | None => Ok (q (fct_messages db))
  end.

(** *** SQL pieces *)

(** [DATE(ts)]: the day of a timestamp; NULL stays NULL. *)
Definition DATE (ts : option Z) : option Z :=
  (fun t => t / 86400) <$> ts.

(** [ORDER BY x] (ascending): NULL sorts after every value. *)
Definition asc_le (a b : option Z) : bool :=
  match a, b with
  | Some x, Some y => x <=? y
  | Some _, None => true
  | None, Some _ => false
  | None, None => true
  end.

(** [ORDER BY x DESC]: NULL sorts before every value. *)
Definition desc_le (a b : option Z) : bool := asc_le b a.

Fixpoint insert_by {A} (le : A -> A -> bool) (x : A) (l : list A) : list A :=
  match l with
  | [] => [x]
  | y :: l' => if le x y then x :: l else y :: insert_by le x l'
  end.

(** Ties keep the order of the table (SQL leaves their order open). *)
Definition sort_by {A} (le : A -> A -> bool) (l : list A) : list A :=
  foldr (insert_by le) [] l.

Definition date_eqb (a b : option Z) : bool :=
  match a, b with
  | Some x, Some y => x =? y
  | None, None => true
  | _, _ => false
  end.

(** The distinct values of a column (NULLs form one group). *)
Fixpoint distinct (l : list (option Z)) : list (option Z) :=
  match l with
  | [] => []
  | x :: l' => if existsb (date_eqb x) l' then distinct l' else x :: distinct l'
  end.

Definition count_of (d : option Z) (l : list (option Z)) : Z :=
  Z.of_nat (length (filter (fun x => date_eqb d x = true) l)).

(** [LIMIT n] *)
Definition LIMIT {A} (n : nat) (l : list A) : list A := take n l.

(** *** Characters and letter case *)

Definition is_ascii (b : ascii) : bool := (nat_of_ascii b <? 128)%nat.

(** A continuation byte of UTF-8: 0x80 to 0xBF. *)
Definition continuation (b : ascii) : bool :=
  ((128 <=? nat_of_ascii b) && (nat_of_ascii b <? 192))%nat.

(** One more byte in front of the characters read so far: a byte below 0x80
    is a character by itself, any other byte belongs with the continuation
    bytes that follow it. *)
Definition push (b : ascii) (read : list character) : list character :=
  match read with
  | (c :: g) :: rest =>
      if continuation c && negb (is_ascii b) then (b :: c :: g) :: rest
      else [b] :: read
  | _ => [b] :: read
  end.

(** The characters of a text. *)
Definition characters (s : list ascii) : list character := foldr push [] s.

(** PostgreSQL's [lower], character by character: an ASCII letter is folded
    as [str.lower] folds it, a character outside ASCII as the locale of the
    database has it. *)
Definition locale_lower (lc : character -> character) (c : character)
    : character :=
  if forallb is_ascii c then c else lc c.

Definition lowered (lc : character -> character) (s : list ascii)
    : list character :=
  map (locale_lower lc) (characters (lower s)).

(** *** LIKE / ILIKE *)

Inductive like_token :=
| TAny                    (* % : any sequence of characters *)
| TOne                    (* _ : any single character *)
| TLit (c : character).   (* the character itself, also when written \c *)

(** The character that is the single byte [a]. *)
Definition is_char (a : ascii) (c : character) : bool :=
  match c with
  | [b] => Ascii.eqb b a
  | _ => false
  end.

(** Reading a LIKE pattern; [None] for a pattern that ends in the middle of
    an escape. *)
Fixpoint like_tokens (p : list character) : option (list like_token) :=
  match p with
  | [] => Some []
  | c :: rest =>
      if is_char "\" c then
        match rest with
        | [] => None
        | c' :: rest' => cons (TLit c') <$> like_tokens rest'
        end
      else if is_char "%" c then cons TAny <$> like_tokens rest
      else if is_char "_" c then cons TOne <$> like_tokens rest
      else cons (TLit c) <$> like_tokens rest
  end.

Fixpoint match_tokens (ts : list like_token) (t : list character) : bool :=
  match ts with
  | [] => match t with [] => true | _ => false end
  | TLit c :: ts' =>
      match t with
      | x :: t' => bool_decide (x = c) && match_tokens ts' t'
      | [] => false
      end
  | TOne :: ts' =>
      match t with
      | _ :: t' => match_tokens ts' t'
      | [] => false
      end
  | TAny :: ts' =>
      (fix from (t : list character) : bool :=
         match_tokens ts' t ||
         match t with
         | [] => false
         | _ :: t' => from t'
         end) t
  end.

(** [text LIKE pattern], on characters *)
Definition LIKE (text pattern : list character) : result bool :=
  match like_tokens pattern with
  | Some ts => Ok (match_tokens ts text)
  | None =>
      Raise (Exn "DataError" "LIKE pattern must not end with escape character" [])
  end.

(** [text ILIKE pattern]: LIKE on the lower-cased text and pattern. *)
Definition ILIKE (lc : character -> character) (text pattern : list ascii)
    : result bool :=
  LIKE (lowered lc text) (lowered lc pattern).

(** A character that stands for itself in a LIKE pattern. *)
Definition plain (c : character) : bool :=
  negb (is_char "\" c) && negb (is_char "%" c) && negb (is_char "_" c).

(** Containment as the specification words it: [text] contains [q] as a
    substring, letter case apart. *)
Definition contains_ci (text q : string) : Prop :=
  exists before after,
    lower (list_ascii_of_string text)
    = (before ++ lower (list_ascii_of_string q) ++ after)%list.

(** Containment in the letter case of the database: the lower-cased [text]
    contains the lower-cased [q], character for character. *)
Definition contains_lowered (lc : character -> character) (text q : string)
    : Prop :=
  exists before after,
    lowered lc (list_ascii_of_string text)
    = (before ++ lowered lc (list_ascii_of_string q) ++ after)%list.

(** *** [get_channel_activity] *)

Record activity_row := ActivityRow {
  date : option Z;
  message_count : Z
}.

Definition channel_activity_query (channel : string)
    (table : list fct_message) : list activity_row :=
  let rows := filter (fun r => channel_id r = channel) table in
  let dates := map (fun r => DATE (media_date r)) rows in
  let groups := map (fun d => ActivityRow d (count_of d dates)) (distinct dates) in
  LIMIT 10 (sort_by (fun a b => asc_le (date a) (date b)) groups).

Definition get_channel_activity (db : Session) (channel_id : string)
    : result (list activity_row) :=
  execute db (channel_activity_query channel_id).

(** *** [get_messages] *)

(** A result row of the search: [message_text] passed [IS NOT NULL]. *)
Record message_row := MessageRow {
  row_message_id : Z;
  row_channel_id : string;
  row_message_text : string;
  row_media_date : option Z;
  row_has_image : option bool
}.

(** The bound parameter [f"%{query}%"]. *)
Definition like_parameter (query : string) : list ascii :=
  "%"%char :: list_ascii_of_string query ++ ["%"%char].

(** The WHERE clause on one row:
    [message_text IS NOT NULL AND message_text ILIKE :query]. *)
Definition where_clause (lc : character -> character) (pattern : list ascii)
    (r : fct_message) : result bool :=
  match message_text r with
  | None => Ok false
  | Some text => ILIKE lc (list_ascii_of_string text) pattern
  end.

Definition to_message_row (r : fct_message) : option message_row :=
  (fun text =>
     MessageRow (message_id r) (channel_id r) text (media_date r) (has_image r))
  <$> message_text r.

Fixpoint select_where (lc : character -> character) (pattern : list ascii)
    (table : list fct_message) : result (list fct_message) :=
  match table with
  | [] => Ok []
  | r :: table' =>
      bind (where_clause lc pattern r) (fun keep =>
      bind (select_where lc pattern table') (fun rest =>
      Ok (if keep then r :: rest else rest)))
  end.

Definition messages_query (lc : character -> character) (pattern : list ascii)
    (table : list fct_message) : result (list message_row) :=
  bind (select_where lc pattern table) (fun rows =>
  Ok (omap to_message_row
        (LIMIT 50 (sort_by (fun a b => desc_le (media_date a) (media_date b)) rows)))).

Definition get_messages (db : Session) (query : string)
    : result (list message_row) :=
  bind (execute db (messages_query (lc_lower db) (like_parameter query)))
       (fun rows => rows).

End Crud.

(** ** [src/main.py]: the FastAPI handlers *)

Module Api.
Import Py Crud.

(** What a handler does: return a value, raise [HTTPException], or let
    another exception escape. *)
Inductive handled (A : Type) : Type :=
| Return (a : A)
| HTTPException (status_code : Z) (detail : string)
| Escaped (e : exn).
Arguments Return {A} a.
Arguments HTTPException {A} status_code detail.
Arguments Escaped {A} e.

(** [schemas.ChannelActivity] and [schemas.MessageSearchResult] *)
Record ChannelActivity := {
  activity_date : Z;
  activity_message_count : Z
}.

Record search_body := SearchBody {
  success : bool;
  count : Z;
  results : list message_row;
  query : string
}.

Inductive body :=
| JsonHello                                    (* {"Hello": "World"} *)
| JsonTopProducts (limit : Z)                  (* {"top_products": ..., "limit": limit} *)
| JsonDetail (detail : string)                 (* {"detail": detail} *)
| JsonActivity (rows : list ChannelActivity)
| JsonSearch (b : search_body)
| PlainText (text : string).

Record response := Response {
  status : Z;
  content : body
}.

Definition channel_map : gmap string string :=
  {[ "lobelia4cosmetics" := "9c8e1e57054ce9826cb986f55b25016d";
     "CheMed123" := "13d619c52e5db90ef6a786b69ba3c978";
     "tikvahpharma" := "f6e7cc642365e9c68c2066ff71d8de76" ]}.

(** Truth value of [dict.get(key)]: [None] and the empty string are falsy. *)
Definition truthy (v : option string) : bool :=
  match v with
  | None => false
  | Some s => negb (String.eqb s "")
  end.

Definition get_activity (channel_name : string) (db : Session)
    : handled (list activity_row) :=
  let channel_id := channel_map !! channel_name in
  if negb (truthy channel_id) then HTTPException 404 "Channel not found"
  else
    match get_channel_activity db (default "" channel_id) with
    | Ok rows => Return rows
    | Raise e => Escaped e
    end.

(** [min(max(1, limit), 100)] *)
Definition effective_limit (limit : Z) : Z := Z.min (Z.max 1 limit) 100.

Definition search_messages (query : string) (limit offset : Z) (db : Session)
    : handled search_body :=
  let limit := effective_limit limit in
  match get_messages db query with
  | Ok results =>
      Return (SearchBody true (Z.of_nat (length results))
                (slice results offset (offset + limit)) query)
  | Raise e =>
      HTTPException 500 ("Error searching messages: " ++ exn_msg e)
  end.

(** *** What FastAPI makes of a handler's outcome *)

(** [response_model=list[ChannelActivity]]: [date] is a required field, a
    NULL date does not validate. *)
Definition validate_activity (rows : list activity_row)
    : option (list ChannelActivity) :=
  mapM (fun r => (fun d => Build_ChannelActivity d (message_count r)) <$> date r)
       rows.

Definition internal_server_error : response :=
  Response 500 (PlainText "Internal Server Error").

Definition respond {A} (render : A -> option body) (h : handled A) : response :=
  match h with
  | Return a =>
      match render a with
      | Some b => Response 200 b
      | None => internal_server_error   (* ResponseValidationError *)
      end
  | HTTPException code detail => Response code (JsonDetail detail)
  | Escaped _ => internal_server_error
  end.

(** GET /api/channels/{channel_name}/activity *)
Definition GET_channel_activity (channel_name : string) (db : Session) : response :=
  respond (fun rows => JsonActivity <$> validate_activity rows)
          (get_activity channel_name db).

(** GET /api/search/messages?query=&limit=&offset= *)
Definition GET_search_messages (query : string) (limit offset : Z) (db : Session)
    : response :=
  respond (fun b => Some (JsonSearch b)) (search_messages query limit offset db).

Definition read_root : handled body := Return JsonHello.

Definition read_top_products (limit : Z) : handled body :=
  Return (JsonTopProducts limit).

(** The routes of [app]. *)
Inductive request :=
| Root
| TopProducts (limit : Z)
| ChannelActivityOf (channel_name : string)
| SearchMessages (query : string) (limit offset : Z).

Definition app (r : request) (db : Session) : response :=
  match r with
  | Root => respond Some read_root
  | TopProducts limit => respond Some (read_top_products limit)
  | ChannelActivityOf channel_name => GET_channel_activity channel_name db
  | SearchMessages query limit offset => GET_search_messages query limit offset db
  end.

(** The same session, the exception it may raise carrying the traceback
    [tb]. *)
Definition with_traceback (tb : list string) (db : Session) : Session :=
  {| fct_messages := fct_messages db;
     execute_fault :=
       (fun e => Exn (exn_class e) (exn_msg e) tb) <$> execute_fault db;
     lc_lower := lc_lower db |}.

End Api.

(** ** [dagster_pipeline/jobs/telegram_pipeline.py]: the ops and the graph *)

Module Pipeline.
Import Py.

(** What [subprocess.run] raises by itself: the program, or the working
    directory, is not there or may not be used, the operating system refuses
    in another way, an argument has a null byte in it, or the output of the
    child does not decode ([text=True]). *)
Inductive run_error :=
| NotFound
| NotPermitted
| OtherOSError
| BadArgument
| Undecodable.

Definition run_error_class (c : run_error) : string :=
  match c with
  | NotFound => "FileNotFoundError"
  | NotPermitted => "PermissionError"
  | OtherOSError => "OSError"
  | BadArgument => "ValueError"
  | Undecodable => "UnicodeDecodeError"
  end.

(** A child process as [subprocess.run] sees it: it exits after some time
    with a return code and its captured stderr, it never exits, or
    [subprocess.run] fails on it. *)
Inductive process :=
| Exits (returncode : Z) (stderr : string) (seconds : Z)
| Hangs
| Fails (c : run_error) (msg : string).

(** A computation that may wait on a child process: it returns, raises, or
    waits for ever. *)
Inductive outcome (A : Type) : Type :=
| Returned (a : A)
| Raised (e : exn)
| Blocked.
Arguments Returned {A} a.
Arguments Raised {A} e.
Arguments Blocked {A}.

#[export] Instance outcome_ret : MRet outcome := @Returned.
#[export] Instance outcome_bind : MBind outcome := fun A B k r =>
  match r with
  | Returned a => k a
  | Raised e => Raised e
  | Blocked => Blocked
  end.

Definition lift {A} (r : result A) : outcome A :=
  match r with
  | Ok a => Returned a
  | Raise e => Raised e
  end.

Record CompletedProcess := {
  returncode : Z;
  stderr : string
}.

(** [subprocess.run(args, capture_output=True, text=True, env=..., timeout=t)].
    Without a timeout it waits until the child exits; with one it raises
    [TimeoutExpired] once the child has run longer than [t] seconds. *)
Definition subprocess_run (timeout : option Z) (p : process)
    : outcome CompletedProcess :=
  match timeout, p with
  | _, Fails c msg => Raised (Exn (run_error_class c) msg [])
  | None, Exits rc err _ => Returned (Build_CompletedProcess rc err)
  | None, Hangs => Blocked
  | Some t, Exits rc err secs =>
      if secs <=? t then Returned (Build_CompletedProcess rc err)
      else Raised (Exn "TimeoutExpired" "Command timed out" [])
  | Some t, Hangs => Raised (Exn "TimeoutExpired" "Command timed out" [])
  end.

(** What a job binds to a resource key: a dictionary, which is what the ops
    subscript, or an object of a class that defines no [__getitem__] and
    keeps its dictionary in [.config], which is what [resources.py] builds.
    The values come from [os.getenv], hence possibly [None]. *)
Inductive resource :=
| DictResource (d : gmap string (option string))
| ObjectResource (class : string) (config : gmap string (option string)).

Record resources := {
  telegram : resource;
  postgres : resource
}.

(** [r[key]]: [str(KeyError(key))] is the key in quotes. *)
Definition getitem (r : resource) (key : string) : result (option string) :=
  match r with
  | DictResource d =>
      match d !! key with
      | Some v => Ok v
      | None => Raise (Exn "KeyError" ("'" ++ key ++ "'") [])
      end
  | ObjectResource class _ =>
      Raise (Exn "TypeError" ("'" ++ class ++ "' object is not subscriptable") [])
  end.

(** [resources.py]: [PostgresResource(None)] and [TelegramResource(None)],
    the objects [telegram_job] is built with ([resource_defs]); [getenv] is
    [os.getenv]. *)
Definition postgres_resource (getenv : string -> option string) : resource :=
  ObjectResource "PostgresResource"
    {[ "db_host" := Some (default "localhost" (getenv "POSTGRES_HOST"));
       "db_port" := Some (default "5432" (getenv "POSTGRES_PORT"));
       "db_name" := Some (default "telegram" (getenv "POSTGRES_DB"));
       "db_user" := Some (default "postgres" (getenv "POSTGRES_USER"));
       "db_password" := Some (default "postgres" (getenv "POSTGRES_PASSWORD")) ]}.

Definition telegram_resource (getenv : string -> option string) : resource :=
  ObjectResource "TelegramResource"
    {[ "api_id" := getenv "TELEGRAM_APP_ID";
       "api_hash" := getenv "TELEGRAM_API_HASH";
       "phone" := getenv "TELEGRAM_PHONE" ]}.

Definition telegram_job_resources (getenv : string -> option string) : resources :=
  {| telegram := telegram_resource getenv; postgres := postgres_resource getenv |}.

(** The [env=dict(os.environ, **{...})] argument: every [d[key]] is looked
    up while the dictionary is built, and [subprocess.run] then refuses a
    value that is [None]. *)
Definition child_env (r : resource)
    (vars : list (string * string)) : result (list (string * string)) :=
  bound ← mapM (fun '(name, key) => v ← getitem r key; Ok (name, v)) vars;
  match mapM (fun '(name, v) => (fun s : string => (name, s)) <$> v) bound with
  | Some env => Ok env
  | None =>
      Raise (Exn "TypeError"
               "expected str, bytes or os.PathLike object, not NoneType" [])
  end.

(** What [Path.exists()] lets through: an [OSError] other than "not there",
    such as the [PermissionError] for a directory that may not be
    searched. *)
Inductive stat_error :=
| Denied
| OtherStatError.

Definition stat_error_class (c : stat_error) : string :=
  match c with
  | Denied => "PermissionError"
  | OtherStatError => "OSError"
  end.

(** What one op reads from outside: where its script (or project
    directory) is, whether looking for it fails and whether it is there,
    how the child process behaves, and the clock when it finishes. *)
Record surroundings := {
  path : string;
  stat_raises : option (stat_error * string);
  path_exists : bool;
  child : process;
  utcnow : string   (* datetime.utcnow().isoformat() *)
}.

(** [script_path.exists()] *)
Definition exists_ (w : surroundings) : outcome bool :=
  match stat_raises w with
  | Some (c, msg) => Raised (Exn (stat_error_class c) msg [])
  | None => Returned (path_exists w)
  end.

Definition success (w : surroundings) : gmap string string :=
  {[ "status" := "success"; "timestamp" := utcnow w ]}.

Definition telegram_vars : list (string * string) :=
  [ ("TELEGRAM_APP_ID", "api_id"); ("TELEGRAM_API_HASH", "api_hash");
    ("TELEGRAM_PHONE", "phone") ].

Definition postgres_vars : list (string * string) :=
  [ ("POSTGRES_HOST", "db_host"); ("POSTGRES_PORT", "db_port");
    ("POSTGRES_DB", "db_name"); ("POSTGRES_USER", "db_user");
    ("POSTGRES_PASSWORD", "db_password") ].

Definition dbt_vars : list (string * string) :=
  [ ("DBT_HOST", "db_host"); ("DBT_PORT", "db_port");
    ("DBT_DATABASE", "db_name"); ("DBT_USER", "db_user");
    ("DBT_PASSWORD", "db_password") ].

Definition scrape_telegram_data (context : resources) (w : surroundings)
    : outcome (gmap string string) :=
  found ← exists_ w;
  if negb found then
    Raised (Exn "FileNotFoundError" ("Scraping script not found at " ++ path w) [])
  else
    env ← lift (child_env (telegram context) telegram_vars);
    result ← subprocess_run None (child w);
    if negb (returncode result =? 0) then
      Raised (Exn "Exception" ("Scraping failed: " ++ stderr result) [])
    else Returned (success w).

Definition load_raw_to_postgres (context : resources) (w : surroundings)
    (previous_result : gmap string string) : outcome (gmap string string) :=
  found ← exists_ w;
  if negb found then
    Raised (Exn "FileNotFoundError" ("Load script not found at " ++ path w) [])
  else
    env ← lift (child_env (postgres context) postgres_vars);
    result ← subprocess_run None (child w);
    if negb (returncode result =? 0) then
      Raised (Exn "Exception" ("Loading to PostgreSQL failed: " ++ stderr result) [])
    else Returned (success w).

Definition run_dbt_transformations (context : resources) (w : surroundings)
    (previous_result : gmap string string) : outcome (gmap string string) :=
  found ← exists_ w;
  if negb found then
    Raised (Exn "FileNotFoundError" ("dbt project not found at " ++ path w) [])
  else
    env ← lift (child_env (postgres context) dbt_vars);
    result ← subprocess_run None (child w);
    if negb (returncode result =? 0) then
      Raised (Exn "Exception" ("dbt transformations failed: " ++ stderr result) [])
    else Returned (success w).

Definition run_yolo_enrichment (context : resources) (w : surroundings)
    (previous_result : gmap string string) : outcome (gmap string string) :=
  found ← exists_ w;
  if negb found then
    Returned {[ "status" := "skipped"; "reason" := "YOLO script not found";
                "timestamp" := utcnow w ]}
  else
    env ← lift (child_env (postgres context) postgres_vars);
    result ← subprocess_run None (child w);
    if negb (returncode result =? 0) then
      Raised (Exn "Exception" ("YOLO enrichment failed: " ++ stderr result) [])
    else Returned (success w).

(** *** The graph and its execution *)

Inductive stage := scrape | load | transform | enrich.

(** The op behind each stage; [previous_result] is ignored by the entry
    stage, which has no input. *)
Definition op_of (s : stage) (context : resources) (w : surroundings)
    (previous_result : gmap string string) : outcome (gmap string string) :=
  match s with
  | scrape => scrape_telegram_data context w
  | load => load_raw_to_postgres context w previous_result
  | transform => run_dbt_transformations context w previous_result
  | enrich => run_yolo_enrichment context w previous_result
  end.

Definition with_child (p : process) (w : surroundings) : surroundings :=
  {| path := path w; stat_raises := stat_raises w; path_exists := path_exists w;
     child := p; utcnow := utcnow w |}.

(** The resource an op subscripts, and the variables it hands to its
    child. *)
Definition resource_of (s : stage) (context : resources) : resource :=
  match s with
  | scrape => telegram context
  | _ => postgres context
  end.

Definition vars_of (s : stage) : list (string * string) :=
  match s with
  | scrape => telegram_vars
  | transform => dbt_vars
  | _ => postgres_vars
  end.

(** The unit of work of a stage is its child process.  The op gets as far
    as starting it when its script (or project directory) is in place and
    the environment of the child can be built. *)
Definition starts_child (s : stage) (context : resources) (w : surroundings)
    : Prop :=
  exists_ w = Returned true
  /\ exists env, child_env (resource_of s context) (vars_of s) = Ok env.

(** The Stage Runner as the specification words it: a stage whose unit of
    work runs longer than its budget, or for ever, is reported as a failure
    of kind Timeout. *)
Definition enforces_timeout (budget : stage -> Z) : Prop :=
  forall s context w previous_result,
    starts_child s context w ->
    (child w = Hangs
     \/ exists rc err seconds, child w = Exits rc err seconds /\ budget s < seconds) ->
    exists e, op_of s context w previous_result = Raised e
              /\ exn_class e = "TimeoutExpired".

#[export] Instance stage_eq_dec : EqDecision stage.
Proof. solve_decision. Defined.

Definition stage_name (s : stage) : string :=
  match s with
  | scrape => "scrape_telegram_data"
  | load => "load_raw_to_postgres"
  | transform => "run_dbt_transformations"
  | enrich => "run_yolo_enrichment"
  end.

(** The statuses the specification names for a run and for an execution. *)
Inductive status := pending | running | succeeded | failed | skipped.

#[export] Instance status_eq_dec : EqDecision status.
Proof. solve_decision. Defined.

(** The record a run keeps of one executed op: what it received, how it
    ended, what it produced. *)
Record StageExecution := {
  executed : stage;
  input_payload : option (gmap string string);
  stage_status : status;
  output_payload : option (gmap string string);
  error_message : option string
}.

Record Run := {
  run_status : status;
  executions : list StageExecution
}.

(** How the outcome of an op is recorded: an op that returns has succeeded,
    whatever the payload it returns says; an op that raises has failed; an
    op still waiting is running. *)
Definition record_of (s : stage) (input : option (gmap string string))
    (o : outcome (gmap string string)) : StageExecution :=
  match o with
  | Returned p =>
      {| executed := s; input_payload := input;
         stage_status := succeeded;
         output_payload := Some p; error_message := None |}
  | Raised e =>
      {| executed := s; input_payload := input; stage_status := failed;
         output_payload := None; error_message := Some (exn_msg e) |}
  | Blocked =>
      {| executed := s; input_payload := input; stage_status := running;
         output_payload := None; error_message := None |}
  end.

(** Building the run while the graph executes: each op invocation is one
    step, which appends its record; a step whose op did not return ends the
    execution of the graph, so the ops that depend on it never start. *)
Definition exec (A : Type) : Type :=
  list StageExecution -> outcome A * list StageExecution.

#[export] Instance exec_ret : MRet exec := fun A a log => (Returned a, log).
#[export] Instance exec_bind : MBind exec := fun A B k m log =>
  match m log with
  | (Returned a, log') => k a log'
  | (Raised e, log') => (Raised e, log')
  | (Blocked, log') => (Blocked, log')
  end.

(** Invoking the op of stage [s]: the entry op takes no input, every other
    op takes the output of the op before it. *)
Definition invoke_entry (s : stage) (op : outcome (gmap string string))
    : exec (gmap string string) :=
  fun log => (op, (log ++ [record_of s None op])%list).

Definition invoke (s : stage)
    (op : gmap string string -> outcome (gmap string string))
    (previous_result : gmap string string) : exec (gmap string string) :=
  fun log =>
    let o := op previous_result in
    (o, (log ++ [record_of s (Some previous_result) o])%list).

Section Graph.
Variable context : resources.
Variable world : stage -> surroundings.

Definition telegram_pipeline : exec (gmap string string) :=
  scraped ← invoke_entry scrape (scrape_telegram_data context (world scrape));
  loaded ← invoke load (load_raw_to_postgres context (world load)) scraped;
  transformed ← invoke transform
                  (run_dbt_transformations context (world transform)) loaded;
  invoke enrich (run_yolo_enrichment context (world enrich)) transformed.

(** One run of [telegram_job]: it has failed when an op raised, it is
    still running when an op never returned, it has succeeded otherwise. *)
Definition execute_job : Run :=
  match telegram_pipeline [] with
  | (Returned _, log) => {| run_status := succeeded; executions := log |}
  | (Raised _, log) => {| run_status := failed; executions := log |}
  | (Blocked, log) => {| run_status := running; executions := log |}
  end.
End Graph.

End Pipeline.

(** ** [scripts/services/telegram_service.py]: [TelegramService.connect] *)

Module TelegramService.
Import Py.

(** The fields of the service [connect] reads and writes. *)
Record service := {
  client : bool;          (* self.client is not None *)
  _is_connected : bool
}.

(** What happens around one pass through the [try] block: whether
    constructing the client raises, what [is_connected()] answers, what each
    awaited call of the client does, and whether the [asyncio.sleep] of the
    handler raises (as it does when the task is cancelled while it
    waits). *)
Record attempt_world := {
  TelegramClient : option exn;
  is_connected : bool;
  client_connect : option exn;
  is_user_authorized : result bool;
  send_code_request : option exn;
  asyncio_sleep : option exn
}.

Inductive event :=
| Attempt (attempt : Z)      (* the try block is entered *)
| Sleep (seconds : Z).       (* await asyncio.sleep(seconds) *)

(** [call o]: a call that raises [e] when [o = Some e]. *)
Definition call (o : option exn) : result unit :=
  match o with
  | Some e => Raise e
  | None => Ok tt
  end.

(** The [try] block.  [Ok true]: [_is_connected] is to be set; [Ok false]:
    the early [return] of the authorisation branch.  The service comes back
    with the client it may have created. *)
Definition try_block (w : attempt_world) (s : service) : service * result bool :=
  match (if client s then Ok tt else call (TelegramClient w)) with
  | Raise e => (s, Raise e)
  | Ok _ =>
      let s := {| client := true; _is_connected := _is_connected s |} in
      (s,
       if negb (is_connected w) then
         _ ← call (client_connect w);
         authorized ← is_user_authorized w;
         if negb authorized then
           _ ← call (send_code_request w);
           Ok false
         else Ok true
       else Ok true)
  end.

Record connected := {
  service_after : service;
  raised : option exn;
  events : list event
}.

(** [for attempt in range(max_retries)], from [attempt] on, with [todo]
    iterations left.  The handler is [except Exception]: it clears the
    flag, and sleeps before the next attempt or, after the last one,
    raises again; any other exception leaves the loop as it is raised. *)
Fixpoint retry_loop (max_retries : Z) (world : Z -> attempt_world)
    (todo : nat) (attempt retry_delay : Z) (s : service) (log : list event)
    : connected :=
  match todo with
  | O => {| service_after := s; raised := None; events := log |}
  | S todo' =>
      let log := (log ++ [Attempt attempt])%list in
      match try_block (world attempt) s with
      | (s, Ok true) =>
          {| service_after := {| client := client s; _is_connected := true |};
             raised := None; events := log |}
      | (s, Ok false) =>
          {| service_after := s; raised := None; events := log |}
      | (s, Raise e) =>
          if is_Exception e then                      (* except Exception *)
            let s := {| client := client s; _is_connected := false |} in
            if attempt <? max_retries - 1 then
              let log := (log ++ [Sleep retry_delay])%list in
              match asyncio_sleep (world attempt) with
              | Some e' => {| service_after := s; raised := Some e'; events := log |}
              | None =>
                  retry_loop max_retries world todo' (attempt + 1)
                    (retry_delay * 2) s log
              end
            else {| service_after := s; raised := Some e; events := log |}
          else {| service_after := s; raised := Some e; events := log |}
      end
  end.

Definition max_retries : Z := 3.
Definition retry_delay : Z := 5.

(** [connected_on_entry]: the answer of [self.client.is_connected()] in the
    guard that opens [connect]. *)
Definition connect (connected_on_entry : bool) (world : Z -> attempt_world)
    (s : service) : connected :=
  if _is_connected s && client s && connected_on_entry then
    {| service_after := s; raised := None; events := [] |}
  else
    retry_loop max_retries world (Z.to_nat max_retries) 0 retry_delay s [].



Definition tried (log : list event) : list Z :=
  omap (fun ev => match ev with Attempt n => Some n | Sleep _ => None end) log.


Definition attempts (c : connected) : list Z := tried (events c).

End TelegramService.

(** ** [scripts/services/telegram_service.py]: [TelegramService.disconnect] *)

Module TelegramSession.
Import Py TelegramService.

(** [client_disconnect]: what [await self.client.disconnect()] does. *)
Definition disconnect (client_disconnect : option exn) (s : service)
    : service * result unit :=
  if _is_connected s && client s then
    match call client_disconnect with
    | Raise e => (s, Raise e)
    | Ok _ => ({| client := client s; _is_connected := false |}, Ok tt)
    end
  else (s, Ok tt).

(** The flag is only ever set on a service that has a client. *)
Definition consistent (s : service) : Prop :=
  _is_connected s = true -> client s = true.

End TelegramSession.

(** ** JSON values and POSIX paths *)

Module Json.

(** What [json.load] returns and [json.dump] takes; a dictionary keeps its
    keys in insertion order. *)
#[warning="-register-all"] Inductive json :=
| JNull
| JBool (b : bool)
| JNum (n : Z)
| JStr (s : string)
| JList (l : list json)
| JDict (d : list (string * json)).

(** [d.get(key)] on a dictionary *)
Fixpoint lookup (key : string) (d : list (string * json)) : option json :=
  match d with
  | [] => None
  | (k, v) :: d' => if String.eqb k key then Some v else lookup key d'
  end.

(** [del d[key]] *)
Definition remove (key : string) (d : list (string * json)) : list (string * json) :=
  filter (fun kv => kv.1 <> key) d.

(** [d[key] = v]: in place when the key is there, at the end otherwise. *)
Fixpoint store (key : string) (v : json) (d : list (string * json))
    : list (string * json) :=
  match d with
  | [] => [(key, v)]
  | (k, v') :: d' =>
      if String.eqb k key then (k, v) :: d' else (k, v') :: store key v d'
  end.

End Json.

Module Posix.

(** [s.startswith(c)] and [s.endswith(c)] for a one-character [c]. *)
Definition starts_with (c : ascii) (s : string) : bool :=
  match s with
  | String x _ => Ascii.eqb x c
  | EmptyString => false
  end.

Fixpoint ends_with (c : ascii) (s : string) : bool :=
  match s with
  | EmptyString => false
  | String x EmptyString => Ascii.eqb x c
  | String _ s' => ends_with c s'
  end.

(** One step of [os.path.join]: an absolute component replaces what came
    before; a separator is added unless the path is empty or ends with one. *)
Definition join2 (path b : string) : string :=
  if starts_with "/" b then b
  else if String.eqb path "" || ends_with "/" path then path ++ b
  else path ++ "/" ++ b.

(** [os.path.join(a, *p)] *)
Definition join (a : string) (p : list string) : string := foldl join2 a p.

(** [s.split(sep)] for a one-character separator. *)
Fixpoint split (sep : ascii) (s : string) : list string :=
  match s with
  | EmptyString => [""]
  | String c s' =>
      if Ascii.eqb c sep then "" :: split sep s'
      else match split sep s' with
           | h :: t => String c h :: t
           | [] => [String c ""]
           end
  end.

(** [l.index(x)]; [None] stands for [ValueError]. *)
Fixpoint index (x : string) (l : list string) : option nat :=
  match l with
  | [] => None
  | y :: l' => if String.eqb y x then Some 0%nat else S <$> index x l'
  end.

(** [str(n)] for a natural number. *)
Definition str (n : nat) : string := NilEmpty.string_of_uint (Nat.to_uint n).

End Posix.

(** ** [scripts/load_to_postgres.py] *)

Module Loader.
Import Py Json Posix.

(** The module imports neither [re] nor a logger: when the path has no
    [telegram_messages] component, [re.compile] raises [NameError] inside
    the handler of [ValueError]; the outer handler catches it and raises
    [NameError] itself, on [logger]. *)
Definition get_channel_name_from_path (file_path : string) : result string :=
  let parts := split "/" file_path in
  match index "telegram_messages" parts with
  | None => Raise (Exn "NameError" "name 'logger' is not defined" [])
  | Some base_idx =>
      if (base_idx + 2 <? length parts)%nat
      then Ok (nth (base_idx + 2) parts "")
      else Ok "unknown"
  end.

(** [file_path.split('/')[-3]] *)
Definition third_from_last (file_path : string) : result string :=
  let parts := split "/" file_path in
  if (3 <=? length parts)%nat then Ok (nth (length parts - 3) parts "")
  else Raise (Exn "IndexError" "list index out of range" []).

(** A row of [raw.telegram_messages] or [raw.telegram_media], without the
    columns the database fills in.  The JSONB column is the JSON value. *)
Record raw_row := RawRow {
  channel_username : string;
  row_date : option json;    (* NULL, or the value bound to the TIMESTAMPTZ column *)
  row_data : json
}.

Record raw_schema := {
  telegram_messages : list raw_row;
  telegram_media : list raw_row
}.

(** What the loader reads from outside: the paths the two [glob] calls
    return, what [open] and [json.load] make of each, and whether the
    database accepts a value as a timestamp. *)
Record loader_world := {
  message_files : list string;
  media_files : list string;
  load : string -> result json;
  is_timestamp : json -> bool
}.

(** [for x in value] *)
Definition iterate (value : json) : result (list json) :=
  match value with
  | JList l => Ok l
  | JDict d => Ok (map (fun kv => JStr kv.1) d)
  | JStr s => Ok (map (fun c => JStr (String c "")) (list_ascii_of_string s))
  | _ => Raise (Exn "TypeError" "object is not iterable" [])
  end.

(** [msg.get(key)]: [None] is JSON's null. *)
Definition get (msg : json) (key : string) : result json :=
  match msg with
  | JDict d => Ok (default JNull (lookup key d))
  | _ => Raise (Exn "AttributeError" "object has no attribute 'get'" [])
  end.

(** One [INSERT]: the date is NULL for [None], and must be a timestamp
    otherwise. *)
Definition insert (w : loader_world) (channel : string) (item : json)
    : result raw_row :=
  date ← get item "date";
  match date with
  | JNull => Ok (RawRow channel None item)
  | _ =>
      if is_timestamp w date then Ok (RawRow channel (Some date) item)
      else Raise (Exn "DataError" "invalid input syntax for type timestamp" [])
  end.

Definition load_file (w : loader_world) (channel_of : string -> result string)
    (file_path : string) : result (list raw_row) :=
  channel ← channel_of file_path;
  content ← load w file_path;
  items ← iterate content;
  mapM (insert w channel) items.

(** The rows [load_json_files] inserts before it commits, or the exception
    that ends it before the commit. *)
Definition load_json_files (w : loader_world) : result raw_schema :=
  messages ← mapM (load_file w third_from_last) (message_files w);
  media ← mapM (load_file w get_channel_name_from_path) (media_files w);
  Ok {| telegram_messages := concat messages; telegram_media := concat media |}.

(** The script: the rows are there after the commit; when the load raises,
    the connection is closed without one. *)
Definition main (w : loader_world) (db : raw_schema) : raw_schema :=
  match load_json_files w with
  | Ok rows =>
      {| telegram_messages := telegram_messages db ++ telegram_messages rows;
         telegram_media := telegram_media db ++ telegram_media rows |}
  | Raise _ => db
  end.

(** [fnmatch(name, 'messages_*.json')] *)
Definition is_messages_file (name : string) : bool :=
  String.prefix "messages_" name
  && String.eqb (substring (String.length name - 5) 5 name) ".json"
  && (14 <=? String.length name)%nat.

End Loader.

(** ** [scripts/scraping.py] and the generator it consumes *)

Module Scraping.
Import Py Json Posix TelegramService.

(** What an [async for] receives from [TelegramService.get_messages]: the
    generator yields dictionaries; an object of another class may offer
    [to_dict()]. *)
Inductive item :=
| Dict (d : list (string * json))
| Object (to_dict : result (list (string * json))).

(** A Telethon message, as far as [get_messages] reads it. *)
Record tmessage := {
  msg_id : Z;
  msg_date : option string;    (* message.date.isoformat(), when there is a date *)
  msg_message : json;
  msg_views : json;            (* getattr(message, 'views', None) *)
  msg_forwards : json
}.

Definition message_data (m : tmessage) : list (string * json) :=
  [ ("id", JNum (msg_id m));
    ("date", match msg_date m with Some d => JStr d | None => JNull end);
    ("message", msg_message m);
    ("views", msg_views m);
    ("forwards", msg_forwards m);
    ("media", JNull) ].

Record messages_world := {
  link_up : bool;                        (* self.client.is_connected() *)
  connected_on_entry : bool;
  attempt : Z -> attempt_world;          (* for connect *)
  get_entity : option exn;
  iter_messages : list tmessage;
  iter_end : option exn                  (* how the iteration ends *)
}.

Record generated := {
  service_then : service;
  yielded : list item;
  ended : option exn
}.

(** [TelegramService.get_messages]: what it yields, and the exception that
    ends it, if any. *)
Definition get_messages (w : messages_world) (s : service) : generated :=
  let c :=
    if negb (_is_connected s) || negb (client s) || negb (link_up w)
    then connect (connected_on_entry w) (attempt w) s
    else {| service_after := s; raised := None; events := [] |} in
  match raised c with
  | Some e => {| service_then := service_after c; yielded := []; ended := Some e |}
  | None =>
      match get_entity w with
      | Some e =>
          {| service_then := service_after c; yielded := []; ended := Some e |}
      | None =>
          {| service_then := service_after c;
             yielded := map (fun m => Dict (message_data m)) (iter_messages w);
             ended := iter_end w |}
      end
  end.

(** What [scrape_channel] reads from outside. *)
Record scrape_world := {
  channel_info : option exn;             (* get_channel_info raising *)
  timestamp : string;                    (* strftime('%Y%m%d_%H%M%S') *)
  today : string;                        (* strftime('%Y-%m-%d') *)
  DATA_DIR : string;
  makedirs : string -> option exn;
  stream : list item;                    (* telegram.get_messages(...) *)
  stream_end : option exn;
  open_w : string -> option exn;         (* open(path, 'w') *)
  media_stream : list (list (string * json));   (* telegram.get_channel_media(...) *)
  media_end : option exn;
  relpath : string -> result string;     (* os.path.relpath(path, os.getcwd()) *)
  not_a_path : json -> exn               (* what it raises on a value that is no str *)
}.

Record scrape_result := {
  channel : string;
  status : string;
  message_count : Z;
  media_count : Z;
  messages_file : option string;
  media_info_file : option string;       (* the key is absent until it is set *)
  error : option string
}.

(** A file as the function leaves it: with a JSON document, or opened and
    left empty. *)
Definition files := list (string * option json).

Definition failed (channel_username : string) (error : string) : scrape_result :=
  {| channel := channel_username; status := "failed"; message_count := 0;
     media_count := 0; messages_file := None; media_info_file := None;
     error := Some error |}.

Definition channel_dir (w : scrape_world) (channel_username : string) : string :=
  join (DATA_DIR w) ["raw"; "telegram_messages"; today w; channel_username].

Definition media_dir (w : scrape_world) (channel_username : string) : string :=
  join (join "data" ["raw"; "telegram_media"]) [channel_username; timestamp w].

(** [message.to_dict() if hasattr(message, 'to_dict') else {}] *)
Definition to_dict_or_empty (i : item) : result (list (string * json)) :=
  match i with
  | Dict _ => Ok []
  | Object to_dict => to_dict
  end.

(** The loop over the messages: [messages] and [written] are the list and
    the files so far. *)
Fixpoint collect (w : scrape_world) (dir : string) (items : list item)
    (messages : list json) (written : files) : list json * files :=
  match items with
  | [] => (messages, written)
  | i :: rest =>
      match to_dict_or_empty i with
      | Raise _ => collect w dir rest messages written
      | Ok message_dict =>
          let messages := (messages ++ [JDict (remove "media" message_dict)])%list in
          let message_count := length messages in
          let partial :=
            join dir ["messages_" ++ timestamp w ++ "_partial_"
                      ++ str message_count ++ ".json"] in
          let written :=
            if (message_count mod 1000 =? 0)%nat then
              match open_w w partial with
              | None => (written ++ [(partial, Some (JList messages))])%list
              | Some _ => written
              end
            else written in
          collect w dir rest messages written
      end
  end.

(** [media['file_path'] = os.path.relpath(media['file_path'], os.getcwd())]
    when the key is there. *)
Definition relativize (w : scrape_world) (media : list (string * json))
    : result (list (string * json)) :=
  match lookup "file_path" media with
  | None => Ok media
  | Some (JStr p) => p' ← relpath w p; Ok (store "file_path" (JStr p') media)
  | Some v => Raise (not_a_path w v)
  end.

Definition scrape_channel (w : scrape_world) (channel_username : string)
    : scrape_result * files :=
  match channel_info w with
  | Some e =>
      (failed channel_username ("Failed to get channel info: " ++ exn_msg e), [])
  | None =>
  let dir := channel_dir w channel_username in
  match makedirs w dir with
  | Some e => (failed channel_username ("Unexpected error: " ++ exn_msg e), [])
  | None =>
  match makedirs w (media_dir w channel_username) with
  | Some e => (failed channel_username ("Unexpected error: " ++ exn_msg e), [])
  | None =>
  let '(messages, written) := collect w dir (stream w) [] [] in
  match stream_end w with
  | Some e => (failed channel_username ("Unexpected error: " ++ exn_msg e), written)
  | None =>
  let file := join dir ["messages_" ++ timestamp w ++ ".json"] in
  match open_w w file with
  | Some e => (failed channel_username ("Unexpected error: " ++ exn_msg e), written)
  | None =>
  let written := (written ++ [(file, Some (JList messages))])%list in
  let saved (status : string) (media_count : Z) (info : option string)
      (error : option string) :=
    {| channel := channel_username; status := status;
       message_count := Z.of_nat (length messages); media_count := media_count;
       messages_file := Some file; media_info_file := info; error := error |} in
  let media_files :=
    filter (fun media_info => media_info <> []) (media_stream w) in
  match media_files with
  | [] => (saved "success" 0 None None, written)
  | _ =>
      let info := join dir ["media_info_" ++ timestamp w ++ ".json"] in
      match open_w w info with
      | Some e =>
          (saved "failed" 0 None (Some ("Failed to fetch media: " ++ exn_msg e)),
           written)
      | None =>
          match mapM (relativize w) media_files with
          | Raise e =>
              (saved "failed" 0 None (Some ("Failed to fetch media: " ++ exn_msg e)),
               (written ++ [(info, None)])%list)
          | Ok relative =>
              (saved "success" (Z.of_nat (length media_files)) (Some info) None,
               (written ++ [(info, Some (JList (map JDict relative)))])%list)
          end
      end
  end
  end end end end end.

End Scraping.

(** ** [scripts/services/telegram_service.py]: the media generator *)

Module Media.
Import Py Json Posix TelegramService.

Inductive media_type := photo | document | video.

Definition type_name (t : media_type) : string :=
  match t with
  | photo => "photo"
  | document => "document"
  | video => "video"
  end.

(** A media object of Telethon; [None] where [hasattr] is false. *)
Record media_object := {
  media_id : option json;
  access_hash : option json;
  mime_type : option string;
  size : option json;
  file_name : option json
}.

(** A message, as far as the media generator reads it.  For [date] and the
    three media attributes the outer option says whether the attribute
    exists, the inner one whether its value is not [None]. *)
Record message := {
  id : Z;
  date : option (option string);          (* the value as isoformat() *)
  photo_of : option (option media_object);
  document_of : option (option media_object);
  video_of : option (option media_object);
  has_download_media : bool;
  download_media : result (option string) (* await message.download_media(file=...) *)
}.

Definition attribute (m : message) (t : media_type)
    : option (option media_object) :=
  match t with
  | photo => photo_of m
  | document => document_of m
  | video => video_of m
  end.

Record file_system := {
  makedirs : string -> option exn;
  exists_ : string -> bool;               (* os.path.exists *)
  abspath : string -> string
}.

(** Truth value of [download_path]: [None] and the empty string are falsy. *)
Definition given (download_path : option string) : option string :=
  match download_path with
  | Some "" => None
  | other => other
  end.

Definition optional (key : string) (v : option json) : list (string * json) :=
  match v with
  | Some x => [(key, x)]
  | None => []
  end.

(** The dictionary [_process_media] starts from: four fixed keys, then the
    attributes the media object has. *)
Definition base_info (m : message) (t : media_type) (media : media_object)
    : list (string * json) :=
  ([ ("message_id", JNum (id m));
     ("date", match date m with
              | Some (Some d) => JStr d
              | _ => JNull
              end);
     ("media_type", JStr (type_name t));
     ("file_path", JNull) ]
   ++ optional "media_id" (media_id media)
   ++ optional "access_hash" (access_hash media)
   ++ optional "mime_type" (JStr <$> mime_type media)
   ++ optional "file_size" (size media)
   ++ optional "file_name" (file_name media))%list.

Definition download_failed (e : exn) (media_info : list (string * json))
    : list (string * json) :=
  store "download_success" (JBool false)
    (store "download_error" (JStr (exn_msg e)) media_info).

(** [_process_media]: the dictionary it returns, or [None]. *)
Definition _process_media (fs : file_system) (m : message) (t : media_type)
    (download_path : option string) : option (list (string * json)) :=
  match attribute m t with
  | None | Some None => None                      (* getattr(...) is None *)
  | Some (Some media) =>
      match date m with
      | Some None => None                         (* None.isoformat() raises *)
      | _ =>
          let media_info := base_info m t media in
          match given download_path with
          | Some path =>
              if has_download_media m then
                match makedirs fs path with
                | Some e => Some (download_failed e media_info)
                | None =>
                    match download_media m with
                    | Raise e => Some (download_failed e media_info)
                    | Ok (Some file_path) =>
                        if negb (String.eqb file_path "") && exists_ fs file_path then
                          Some (store "download_success" (JBool true)
                                  (store "file_path" (JStr (abspath fs file_path))
                                     media_info))
                        else Some (store "download_success" (JBool false) media_info)
                    | Ok None =>
                        Some (store "download_success" (JBool false) media_info)
                    end
                end
              else Some media_info
          | None => Some media_info
          end
      end
  end.

(** [sub in s] *)
Fixpoint contains (sub s : string) : bool :=
  String.prefix sub s
  || match s with
     | String _ s' => contains sub s'
     | EmptyString => false
     end.

Definition lower_string (s : string) : string :=
  string_of_list_ascii (lower (list_ascii_of_string s)).

(** The body of the loop of [get_channel_media] for one message: the media
    information to yield, if any. *)
Definition media_of (fs : file_system) (file_types : list string)
    (download_path : option string) (m : message)
    : option (list (string * json)) :=
  if bool_decide (is_Some (photo_of m)) && bool_decide ("photo" ∈ file_types) then
    _process_media fs m photo download_path
  else if bool_decide (is_Some (document_of m))
          && bool_decide ("document" ∈ file_types) then
    let mime :=
      lower_string (match document_of m with
                    | Some (Some d) => default "" (mime_type d)
                    | _ => ""
                    end) in
    if String.eqb mime "" || contains "image/" mime || contains "video/" mime
    then _process_media fs m document download_path
    else None
  else if bool_decide (is_Some (video_of m)) && bool_decide ("video" ∈ file_types) then
    _process_media fs m video download_path
  else None.

(** The loop, with [media_count] media yielded so far. *)
Fixpoint media_loop (fs : file_system) (limit : Z) (file_types : list string)
    (download_path : option string) (messages : list message) (media_count : Z)
    : list (list (string * json)) :=
  match messages with
  | [] => []
  | m :: rest =>
      if limit <=? media_count then []
      else
        match media_of fs file_types download_path m with
        | Some media_info =>
            if bool_decide (media_info <> []) then
              media_info
                :: media_loop fs limit file_types download_path rest (media_count + 1)
            else media_loop fs limit file_types download_path rest media_count
        | None => media_loop fs limit file_types download_path rest media_count
        end
  end.

Record media_world := {
  link_up : bool;
  connected_on_entry : bool;
  attempt : Z -> attempt_world;
  get_entity : option exn;
  fs : file_system;
  iter_messages : Z -> list message;      (* iter_messages(channel, limit=...) *)
  iter_end : option exn
}.

Record generated := {
  yielded : list (list (string * json));
  ended : option exn
}.

Definition get_channel_media (w : media_world) (s : service) (limit : Z)
    (file_types : option (list string)) (download_path : option string)
    : generated :=
  let file_types := default ["photo"; "document"; "video"] file_types in
  let c :=
    if negb (_is_connected s) || negb (client s) || negb (link_up w)
    then connect (connected_on_entry w) (attempt w) s
    else {| service_after := s; raised := None; events := [] |} in
  match raised c with
  | Some e => {| yielded := []; ended := Some e |}
  | None =>
      match get_entity w with
      | Some e => {| yielded := []; ended := Some e |}
      | None =>
          match (path ← given download_path; makedirs (fs w) path) with
          | Some e => {| yielded := []; ended := Some e |}
          | None =>
              let fetch_limit := Z.min (limit * 3) 100000 in
              {| yielded :=
                   media_loop (fs w) limit file_types download_path
                     (iter_messages w fetch_limit) 0;
                 ended := iter_end w |}
          end
      end
  end.

End Media.

(** ** Scenarios

  The tables, surroundings and client behaviours the examples below are
  run on. *)

Module ApiScenarios.
Import Py Crud Api.

Definition broken_session : Session :=
  {| fct_messages := [];
     execute_fault :=
       Some (Exn "OperationalError" "connection refused" ["File crud.py, line 13"]);
     lc_lower := fun c => c |}.

(** Eleven messages of one channel, on eleven different days. *)
Definition eleven_days : Session :=
  {| fct_messages :=
       map (fun d => FctMessage d "13d619c52e5db90ef6a786b69ba3c978"
                       (Some "hello") (Some (d * 86400)) None)
           [1; 2; 3; 4; 5; 6; 7; 8; 9; 10; 11];
     execute_fault := None; lc_lower := fun c => c |}.

(** 51 messages, each of them containing the word searched for. *)
Definition about_covid : Session :=
  {| fct_messages :=
       map (fun n => FctMessage (Z.of_nat n) "13d619c52e5db90ef6a786b69ba3c978"
                       (Some "covid vaccine") (Some (Z.of_nat n)) (Some false))
           (seq 1 51);
     execute_fault := None; lc_lower := fun c => c |}.

Definition one_letter : Session :=
  {| fct_messages := [FctMessage 1 "13d619c52e5db90ef6a786b69ba3c978"
                        (Some "a") (Some 0) None];
     execute_fault := None; lc_lower := fun c => c |}.

End ApiScenarios.

Module PipelineScenarios.
Import Py Pipeline.

(** Resources as the ops subscript them: dictionaries. *)
Definition credentials : resources :=
  {| telegram :=
       DictResource {[ "api_id" := Some "12345"; "api_hash" := Some "0123abcd";
                       "phone" := Some "+251900000000" ]};
     postgres :=
       DictResource {[ "db_host" := Some "localhost"; "db_port" := Some "5432";
                       "db_name" := Some "telegram"; "db_user" := Some "postgres";
                       "db_password" := Some "postgres" ]} |}.

(** An environment in which the three Telegram variables are set. *)
Definition dotenv (name : string) : option string :=
  if String.eqb name "TELEGRAM_APP_ID" then Some "12345"
  else if String.eqb name "TELEGRAM_API_HASH" then Some "0123abcd"
  else if String.eqb name "TELEGRAM_PHONE" then Some "+251900000000"
  else None.

(** Every script is in place and exits with the given code after a while. *)
Definition all_exit (code : stage -> Z) (s : stage) : surroundings :=
  {| path := "scripts/" ++ stage_name s; stat_raises := None; path_exists := true;
     child := Exits (code s) "Traceback (most recent call last)" 60;
     utcnow := "2025-07-14T00:00:00" |}.

Definition scrape_exits_1 : stage -> surroundings :=
  all_exit (fun s => if decide (s = scrape) then 1 else 0).

Definition yolo_missing (s : stage) : surroundings :=
  {| path := "scripts/" ++ stage_name s; stat_raises := None;
     path_exists := negb (bool_decide (s = enrich));
     child := Exits 0 "" 60; utcnow := "2025-07-14T00:00:00" |}.

End PipelineScenarios.

Module TelegramScenarios.
Import Py TelegramService.

Definition unreachable : attempt_world :=
  {| TelegramClient := None; is_connected := false;
     client_connect := Some (Exn "ConnectionError" "Connection to Telegram failed" []);
     is_user_authorized := Ok true; send_code_request := None;
     asyncio_sleep := None |}.

(** The task is cancelled while the client connects. *)
Definition cancelled : attempt_world :=
  {| TelegramClient := None; is_connected := false;
     client_connect := Some (Exn "CancelledError" "" []);
     is_user_authorized := Ok true; send_code_request := None;
     asyncio_sleep := None |}.

(** The connection fails, and the task is cancelled while it sleeps. *)
Definition cancelled_asleep : attempt_world :=
  {| TelegramClient := None; is_connected := false;
     client_connect := Some (Exn "ConnectionError" "Connection to Telegram failed" []);
     is_user_authorized := Ok true; send_code_request := None;
     asyncio_sleep := Some (Exn "CancelledError" "" []) |}.

Definition fresh : service := {| client := false; _is_connected := false |}.

(** The five events of a call in which every attempt fails. *)
Definition exhausted : list event :=
  [Attempt 0; Sleep 5; Attempt 1; Sleep 10; Attempt 2].

End TelegramScenarios.

Module LoaderScenarios.
Import Py Json Posix Loader.

Definition one_day_of_files : loader_world :=
  {| message_files :=
       ["data/raw/telegram_messages/2025-07-14/CheMed123/messages_20250714_000000.json"];
     media_files := [];
     load := fun _ => Ok (JList [JDict []; JDict []]);
     is_timestamp := fun _ => true |}.

Definition one_broken_file : loader_world :=
  {| message_files :=
       ["data/raw/telegram_messages/2025-07-14/CheMed123/messages_20250714_000000.json"];
     media_files :=
       ["data/raw/telegram_messages/2025-07-14/CheMed123/media_info_20250714_000000.json"];
     load := fun path =>
       if String.prefix "data/raw/telegram_messages/2025-07-14/CheMed123/media" path
       then Raise (Exn "JSONDecodeError" "Expecting value: line 1 column 1 (char 0)" [])
       else Ok (JList [JDict []; JDict []]);
     is_timestamp := fun _ => true |}.

Definition empty_schema : raw_schema :=
  {| telegram_messages := []; telegram_media := [] |}.

End LoaderScenarios.

Module ScrapingScenarios.
Import Py Json Posix TelegramService Scraping.

Definition two_posts : list tmessage :=
  [ {| msg_id := 2; msg_date := Some "2025-07-14T08:00:00+00:00";
       msg_message := JStr "Paracetamol 500mg"; msg_views := JNum 10;
       msg_forwards := JNum 0 |};
    {| msg_id := 1; msg_date := Some "2025-07-13T08:00:00+00:00";
       msg_message := JNull; msg_views := JNull; msg_forwards := JNull |} ].

(** A channel with two posts and a photo whose download failed. *)
Definition quiet_channel (media : list (list (string * json))) : scrape_world :=
  {| channel_info := None; timestamp := "20250714_000000"; today := "2025-07-14";
     DATA_DIR := "/srv/week-7/data"; makedirs := fun _ => None;
     stream := map (fun m => Dict (message_data m)) two_posts; stream_end := None;
     open_w := fun _ => None; media_stream := media; media_end := None;
     relpath := fun p => Ok p;
     not_a_path := fun _ => Exn "ValueError" "no path specified" [] |}.

(** A session that is connected and reads the two posts. *)
Definition reading : messages_world :=
  {| link_up := true; connected_on_entry := true;
     attempt := fun _ =>
       {| TelegramClient := None; is_connected := true; client_connect := None;
          is_user_authorized := Ok true; send_code_request := None;
          asyncio_sleep := None |};
     get_entity := None; iter_messages := two_posts; iter_end := None |}.

Definition signed_in : service := {| client := true; _is_connected := true |}.

(** A channel with a thousand posts. *)
Definition busy_channel : scrape_world :=
  {| channel_info := None; timestamp := "20250714_000000"; today := "2025-07-14";
     DATA_DIR := "/srv/week-7/data"; makedirs := fun _ => None;
     stream := replicate 1000 (Dict []); stream_end := None;
     open_w := fun _ => None; media_stream := []; media_end := None;
     relpath := fun p => Ok p;
     not_a_path := fun _ => Exn "ValueError" "no path specified" [] |}.


End ScrapingScenarios.

Module MediaScenarios.
Import Py Json Posix TelegramService Media.

Definition a_document : media_object :=
  {| media_id := Some (JNum 7); access_hash := Some (JNum 99);
     mime_type := Some "image/png"; size := Some (JNum 2048); file_name := None |}.

(** A message of Telethon that carries a document: the class defines
    [photo], [document] and [video] alike, so all three attributes exist. *)
Definition with_document : message :=
  {| id := 42; date := Some (Some "2025-07-14T08:00:00+00:00");
     photo_of := Some None; document_of := Some (Some a_document);
     video_of := Some None; has_download_media := true;
     download_media := Ok (Some "data/raw/telegram_media/CheMed123/x/photo.png") |}.

Definition nothing_on_disk : file_system :=
  {| makedirs := fun _ => None; exists_ := fun _ => false; abspath := fun p => p |}.

Definition documents_only : media_world :=
  {| link_up := true; connected_on_entry := true;
     attempt := fun _ =>
       {| TelegramClient := None; is_connected := true; client_connect := None;
          is_user_authorized := Ok true; send_code_request := None;
          asyncio_sleep := None |};
     get_entity := None; fs := nothing_on_disk;
     iter_messages := fun _ => [with_document; with_document];
     iter_end := None |}.

Definition a_photo : media_object :=
  {| media_id := Some (JNum 8); access_hash := Some (JNum 100);
     mime_type := None; size := None; file_name := None |}.

Definition with_photo : message :=
  {| id := 43; date := Some (Some "2025-07-14T09:00:00+00:00");
     photo_of := Some (Some a_photo); document_of := Some None;
     video_of := Some None; has_download_media := true;
     download_media :=
       Ok (Some "data/raw/telegram_media/CheMed123/20250714_000000/photo_43.jpg") |}.

Definition all_on_disk : file_system :=
  {| makedirs := fun _ => None; exists_ := fun _ => true;
     abspath := fun p => "/srv/week-7/" ++ p |}.

(** A channel with a document and a photo, read while the downloads leave
    nothing on disk. *)
Definition photos_lost : media_world :=
  {| link_up := true; connected_on_entry := true;
     attempt := fun _ =>
       {| TelegramClient := None; is_connected := true; client_connect := None;
          is_user_authorized := Ok true; send_code_request := None;
          asyncio_sleep := None |};
     get_entity := None; fs := nothing_on_disk;
     iter_messages := fun _ => [with_document; with_photo];
     iter_end := None |}.

End MediaScenarios.

(** ** Auxiliary notions used to state the properties *)

Module Aux.

(** The sum of a column of counts. *)
Definition total (counts : list Z) : Z := foldr Z.add 0 counts.

(** A name that can be a path component: no separator in it. *)
Definition no_slash (s : string) : bool :=
  forallb (fun c => negb (Ascii.eqb c "/")) (list_ascii_of_string s).

End Aux.

(** * Properties *)

(** ** The read API *)

Module ApiFacts.
Import Py Crud Api ApiScenarios.

Lemma channel_map_lookup (name : string) :
  channel_map !! name =
    if decide (name = "lobelia4cosmetics")
    then Some "9c8e1e57054ce9826cb986f55b25016d"
    else if decide (name = "CheMed123")
    then Some "13d619c52e5db90ef6a786b69ba3c978"
    else if decide (name = "tikvahpharma")
    then Some "f6e7cc642365e9c68c2066ff71d8de76"
    else None.
Proof.
  unfold channel_map.
  rewrite !lookup_insert, lookup_singleton.
  repeat case_decide; congruence.
Qed.

Lemma known_channel_truthy (name cid : string) :
  channel_map !! name = Some cid -> truthy (Some cid) = true.
Proof.
  rewrite channel_map_lookup.
  repeat case_decide; intros [= <-]; reflexivity.
Qed.

Lemma get_activity_known (name cid : string) (db : Session) :
  channel_map !! name = Some cid ->
  get_activity name db =
    match get_channel_activity db cid with
    | Ok rows => Return rows
    | Raise e => Escaped e
    end.
Proof.
  intros H. unfold get_activity.
  rewrite H, (known_channel_truthy name cid H). reflexivity.
Qed.

Lemma get_activity_unknown (name : string) (db : Session) :
  channel_map !! name = None ->
  get_activity name db = HTTPException 404 "Channel not found".
Proof. intros H. unfold get_activity. rewrite H. reflexivity. Qed.

(** *** Sorting and limiting keep, respectively bound, the number of rows *)

Lemma length_insert_by {A} (le : A -> A -> bool) (x : A) (l : list A) :
  length (insert_by le x l) = S (length l).
Proof.
  induction l as [|y l IH]; simpl; [reflexivity|].
  destruct (le x y); simpl; congruence.
Qed.

Lemma length_sort_by {A} (le : A -> A -> bool) (l : list A) :
  length (sort_by le l) = length l.
Proof.
  induction l as [|x l IH]; simpl; [reflexivity|].
  unfold sort_by in *. rewrite length_insert_by. congruence.
Qed.

Lemma length_LIMIT {A} (n : nat) (l : list A) :
  length (LIMIT n l) = Nat.min n (length l).
Proof. unfold LIMIT. apply length_take. Qed.

Lemma length_validate_activity (rows : list activity_row) (sent : list ChannelActivity) :
  validate_activity rows = Some sent -> length sent = length rows.
Proof.
  unfold validate_activity. intros H.
  apply length_mapM in H. congruence.
Qed.

Lemma length_channel_activity_query (channel : string) (table : list fct_message) :
  (length (channel_activity_query channel table) <= 10)%nat.
Proof. unfold channel_activity_query. rewrite length_LIMIT. lia. Qed.

Lemma respond_with_traceback_activity (name : string) (db : Session) (tb : list string) :
  GET_channel_activity name (with_traceback tb db) = GET_channel_activity name db.
Proof.
  unfold GET_channel_activity, get_activity, get_channel_activity, execute.
  destruct (negb (truthy (channel_map !! name))); [reflexivity|].
  simpl. destruct (execute_fault db); reflexivity.
Qed.

Lemma respond_with_traceback_search (q : string) (limit offset : Z)
    (db : Session) (tb : list string) :
  GET_search_messages q limit offset (with_traceback tb db)
  = GET_search_messages q limit offset db.
Proof.
  unfold GET_search_messages, search_messages, get_messages, execute.
  simpl. destruct (execute_fault db); reflexivity.
Qed.

(** C7.  A channel name that is not a key of [channel_map] is answered with
    status 404 and the body [{"detail": "Channel not found"}]; and whatever
    the request, the response of the API is the same whichever traceback the
    exception raised by the database carries: no stack trace reaches the
    client. *)
Theorem unknown_channel_is_404 (name : string) (db : Session)
    (Hunknown : channel_map !! name = None) :
  app (ChannelActivityOf name) db = Response 404 (JsonDetail "Channel not found")
  /\ forall (r : request) (tb : list string),
       app r (with_traceback tb db) = app r db.
Proof.
  split.
  - simpl. unfold GET_channel_activity.
    rewrite (get_activity_unknown name db Hunknown). reflexivity.
  - intros [| limit | channel | q limit offset] tb; simpl.
    + reflexivity.
    + reflexivity.
    + apply respond_with_traceback_activity.
    + apply respond_with_traceback_search.
Qed.

Lemma unknown_channel_is_404_witness :
  app (ChannelActivityOf "unknown_channel") broken_session
    = Response 404 (JsonDetail "Channel not found")
  /\ forall (r : request) (tb : list string),
       app r (with_traceback tb broken_session) = app r broken_session.
Proof. apply (unknown_channel_is_404 "unknown_channel" broken_session). reflexivity. Defined.

(** C10.  The activity endpoint accepts exactly the three names of
    [channel_map]: for each of them the handler runs the activity query with
    the mapped channel id, and for every other name it raises
    [HTTPException(404, "Channel not found")]. *)
Theorem activity_accepts_exactly_three_names (name : string) (db : Session) :
  (name ∈ ["lobelia4cosmetics"; "CheMed123"; "tikvahpharma"]
   /\ exists cid, channel_map !! name = Some cid
      /\ get_activity name db =
           (match get_channel_activity db cid with
            | Ok rows => Return rows
            | Raise e => Escaped e
            end))
  \/ ((name ∉ ["lobelia4cosmetics"; "CheMed123"; "tikvahpharma"])
      /\ get_activity name db = HTTPException 404 "Channel not found"
      /\ status (app (ChannelActivityOf name) db) = 404).
Proof.
  destruct (channel_map !! name) as [cid|] eqn:Hlookup.
  - left. split.
    + rewrite channel_map_lookup in Hlookup.
      rewrite !elem_of_cons.
      repeat case_decide; try discriminate; auto.
    + exists cid. split; [reflexivity|]. by apply get_activity_known.
  - right. split; [|split].
    + rewrite channel_map_lookup in Hlookup.
      rewrite !elem_of_cons, elem_of_nil.
      repeat case_decide; try discriminate. tauto.
    + by apply get_activity_unknown.
    + simpl. unfold GET_channel_activity.
      by rewrite (get_activity_unknown name db Hlookup).
Qed.

(** A channel addressed by its raw id is not accepted either. *)
Example raw_channel_id_is_404 (db : Session) :
  get_activity "9c8e1e57054ce9826cb986f55b25016d" db
  = HTTPException 404 "Channel not found".
Proof. reflexivity. Qed.

(** C8.  For a known channel and a database that serves the query, the
    handler returns the first ten groups of the query and no more, however
    many distinct dates the channel has; and no activity response ever
    carries more than ten entries. *)
Theorem activity_has_at_most_10_entries (name cid : string) (db : Session)
    (Hknown : channel_map !! name = Some cid)
    (Hserves : execute_fault db = None) :
  (exists rows, get_activity name db = Return rows
     /\ rows = channel_activity_query cid (fct_messages db)
     /\ (length rows <= 10)%nat)
  /\ forall sent, content (app (ChannelActivityOf name) db) = JsonActivity sent ->
       (length sent <= 10)%nat.
Proof.
  assert (Hget : get_activity name db
                 = Return (channel_activity_query cid (fct_messages db))).
  { rewrite (get_activity_known name cid db Hknown).
    unfold get_channel_activity, execute. by rewrite Hserves. }
  split.
  - eexists. split; [exact Hget|]. split; [reflexivity|].
    apply length_channel_activity_query.
  - intros sent. simpl. unfold GET_channel_activity. rewrite Hget. simpl.
    destruct (validate_activity _) as [ok|] eqn:Hvalid; simpl; [|discriminate].
    intros [= <-]. rewrite (length_validate_activity _ _ Hvalid).
    apply length_channel_activity_query.
Qed.

Lemma activity_has_at_most_10_entries_witness :
  (exists rows, get_activity "CheMed123" eleven_days = Return rows
     /\ rows = channel_activity_query "13d619c52e5db90ef6a786b69ba3c978"
                 (fct_messages eleven_days)
     /\ (length rows <= 10)%nat)
  /\ forall sent,
       content (app (ChannelActivityOf "CheMed123") eleven_days) = JsonActivity sent ->
       (length sent <= 10)%nat.
Proof.
  apply (activity_has_at_most_10_entries "CheMed123"
           "13d619c52e5db90ef6a786b69ba3c978" eleven_days); reflexivity.
Defined.

(** *** The search *)

Lemma effective_limit_bounds (limit : Z) : 1 <= effective_limit limit <= 100.
Proof. unfold effective_limit. lia. Qed.

Lemma length_slice {A} (l : list A) (start stop : Z) :
  start <= stop ->
  (length (slice l start stop) <= Z.to_nat (stop - start))%nat
  /\ (length (slice l start stop) <= length l)%nat.
Proof.
  intros Hle. unfold slice, slice_bound.
  rewrite length_take, length_drop.
  destruct (Z.ltb_spec start 0), (Z.ltb_spec stop 0); lia.
Qed.

Lemma slice_from_the_start {A} (l : list A) (start stop : Z) :
  0 <= start <= stop ->
  slice l start stop = take (Z.to_nat (stop - start)) (drop (Z.to_nat start) l).
Proof.
  intros Hrange. unfold slice, slice_bound.
  destruct (Z.ltb_spec start 0), (Z.ltb_spec stop 0); try lia.
  destruct (Z.le_gt_cases (Z.of_nat (length l)) start) as [Hout | Hin].
  - rewrite !(drop_ge l) by lia. by rewrite !take_nil.
  - rewrite (Z.min_l start) by lia.
    destruct (Z.le_gt_cases stop (Z.of_nat (length l))) as [Hfits | Hlong].
    + by rewrite (Z.min_l stop) by lia.
    + rewrite (Z.min_r stop) by lia.
      rewrite !take_ge; [reflexivity | |]; rewrite length_drop; lia.
Qed.

(** *** The characters of the bound parameter *)

Lemma push_app (b : ascii) (read tail : list character) :
  read <> [] -> push b (read ++ tail) = (push b read ++ tail)%list.
Proof.
  destruct read as [|[|c g] rest]; [done | reflexivity |]. intros _. simpl.
  by destruct (continuation c && negb (is_ascii b)).
Qed.

Lemma foldr_push_ascii (s : list ascii) (b : ascii) (read : list character) :
  is_ascii b = true ->
  foldr push ([b] :: read) s = (characters s ++ [b] :: read)%list.
Proof.
  intros Hb. induction s as [|x s IH]; [reflexivity|].
  cbn [foldr]. rewrite IH. unfold characters. cbn [foldr].
  destruct (foldr push [] s) as [|g gs] eqn:Hs.
  - simpl. assert (continuation b = false) as ->; [|reflexivity].
    unfold continuation, is_ascii in *.
    apply Nat.ltb_lt in Hb. apply andb_false_iff. left. apply Nat.leb_gt. lia.
  - by apply push_app.
Qed.

Lemma characters_snoc_ascii (s : list ascii) (b : ascii) :
  is_ascii b = true -> characters (s ++ [b]) = (characters s ++ [[b]])%list.
Proof.
  intros Hb. unfold characters at 1. rewrite foldr_app. cbn [foldr push].
  by apply foldr_push_ascii.
Qed.

Lemma characters_cons_ascii (s : list ascii) (b : ascii) :
  is_ascii b = true -> characters (b :: s) = [b] :: characters s.
Proof.
  intros Hb. unfold characters. cbn [foldr].
  destruct (foldr push [] s) as [|[|c g] rest]; try reflexivity.
  simpl. rewrite Hb. by rewrite andb_false_r.
Qed.

Lemma lower_like_parameter (q : string) :
  lower (like_parameter q)
  = "%"%char :: lower (list_ascii_of_string q) ++ ["%"%char].
Proof. unfold like_parameter, lower. simpl. by rewrite map_app. Qed.

Lemma lowered_like_parameter (lc : character -> character) (q : string) :
  lowered lc (like_parameter q)
  = ["%"%char] :: lowered lc (list_ascii_of_string q) ++ [["%"%char]].
Proof.
  unfold lowered. rewrite lower_like_parameter.
  rewrite characters_cons_ascii, characters_snoc_ascii by reflexivity.
  cbn [map]. by rewrite map_app.
Qed.

Lemma like_tokens_closed (p : list character) :
  is_Some (like_tokens (p ++ [["%"%char]]))
  /\ forall c, is_Some (like_tokens (c :: p ++ [["%"%char]])).
Proof.
  induction p as [|x p [IH1 IH2]].
  - split; [by eexists|].
    intros c. simpl. repeat destruct (is_char _ c); by eexists.
  - split; [apply IH2|].
    intros c. change (like_tokens (c :: (x :: p) ++ [["%"%char]])) with
      (if is_char "\" c then cons (TLit x) <$> like_tokens (p ++ [["%"%char]])
       else if is_char "%" c then cons TAny <$> like_tokens (x :: p ++ [["%"%char]])
       else if is_char "_" c then cons TOne <$> like_tokens (x :: p ++ [["%"%char]])
       else cons (TLit c) <$> like_tokens (x :: p ++ [["%"%char]])).
    destruct (IH2 x) as [ts Hts]. destruct IH1 as [ts' Hts'].
    rewrite Hts', Hts. repeat destruct (is_char _ c); by eexists.
Qed.

(** The pattern [get_messages] binds is always well formed: the query never
    fails on it. *)
Lemma where_clause_total (lc : character -> character) (q : string)
    (r : fct_message) :
  exists keep, where_clause lc (like_parameter q) r = Ok keep.
Proof.
  unfold where_clause. destruct (message_text r) as [text|]; [|by eexists].
  unfold ILIKE, LIKE. rewrite lowered_like_parameter.
  destruct (proj2 (like_tokens_closed (lowered lc (list_ascii_of_string q)))
              ["%"%char]) as [ts ->].
  by eexists.
Qed.

(** The rows the WHERE clause lets through are the rows of the table on
    which it holds, each as often as the table has it, and in the order of
    the table. *)
Lemma select_where_filter (lc : character -> character) (q : string)
    (table : list fct_message) :
  select_where lc (like_parameter q) table
  = Ok (filter (fun r => where_clause lc (like_parameter q) r = Ok true) table).
Proof.
  induction table as [|r table IH]; [reflexivity|].
  cbn [select_where]. rewrite IH, filter_cons.
  destruct (where_clause_total lc q r) as [[|] Hkeep].
  - rewrite decide_True by exact Hkeep. by rewrite Hkeep.
  - rewrite decide_False by congruence. by rewrite Hkeep.
Qed.

Lemma select_where_total (lc : character -> character) (q : string)
    (table : list fct_message) :
  exists rows, select_where lc (like_parameter q) table = Ok rows
               /\ (length rows <= length table)%nat.
Proof.
  eexists. split; [apply select_where_filter | apply length_filter].
Qed.

Lemma length_omap_rows (rows : list fct_message) :
  Forall (fun r => is_Some (message_text r)) rows ->
  length (omap to_message_row rows) = length rows.
Proof.
  induction 1 as [|r rows [text Htext] _ IH]; simpl; [reflexivity|].
  unfold to_message_row at 1. rewrite Htext. simpl. f_equal. exact IH.
Qed.

Lemma where_clause_not_null (lc : character -> character) (pattern : list ascii)
    (r : fct_message) :
  where_clause lc pattern r = Ok true -> is_Some (message_text r).
Proof.
  unfold where_clause. destruct (message_text r); [by eexists | discriminate].
Qed.

Lemma Forall_insert_by {A} (P : A -> Prop) (le : A -> A -> bool) (x : A) (l : list A) :
  P x -> Forall P l -> Forall P (insert_by le x l).
Proof.
  intros Hx. induction 1 as [|y l Hy Hl IH]; simpl.
  - by constructor.
  - destruct (le x y); repeat constructor; auto.
Qed.

Lemma Forall_sort_by {A} (P : A -> Prop) (le : A -> A -> bool) (l : list A) :
  Forall P l -> Forall P (sort_by le l).
Proof.
  induction 1 as [|x l Hx Hl IH]; [constructor|].
  by apply Forall_insert_by.
Qed.

(** What [get_messages] returns when the database serves the query: the
    rows of the table that pass the WHERE clause, the most recent first,
    but never more than 50 of them. *)
Lemma get_messages_capped (db : Session) (q : string) :
  execute_fault db = None ->
  exists rows,
    get_messages db q = Ok rows
    /\ rows = omap to_message_row
                (LIMIT 50
                   (sort_by (fun a b => desc_le (media_date a) (media_date b))
                      (filter (fun r => where_clause (lc_lower db) (like_parameter q) r
                                        = Ok true)
                         (fct_messages db))))
    /\ length rows
       = Nat.min 50
           (length (filter (fun r => where_clause (lc_lower db) (like_parameter q) r
                                     = Ok true)
                      (fct_messages db))).
Proof.
  intros Hserves. eexists. split; [|split; [reflexivity|]].
  - unfold get_messages, execute, messages_query.
    rewrite Hserves. simpl. by rewrite select_where_filter.
  - rewrite length_omap_rows.
    + by rewrite length_LIMIT, length_sort_by.
    + unfold LIMIT. apply Forall_take, Forall_sort_by.
      apply Forall_forall. intros r Hr. apply list_elem_of_filter in Hr as [Hr _].
      by eapply where_clause_not_null.
Qed.

(** C2, amended.  The limit is clamped to [1, 100]: a limit below 1 counts
    as 1, one above 100 as 100, any other as itself.  When the database
    serves the query, [count] is the number of rows [get_messages]
    returned, which is the number of messages that match, but 50 at most
    (the query ends in [LIMIT 50]), whatever the limit and the offset;
    [results] is the slice of these rows from [offset] to [offset] plus the
    clamped limit, so for an offset that is not negative the rows after the
    first [offset], up to the clamped limit; and it is no longer than the
    clamped limit, nor than [count]. *)
Theorem search_messages_served (db : Session) (q : string) (limit offset : Z)
    (Hserves : execute_fault db = None) :
  ((limit < 1 -> effective_limit limit = 1)
   /\ (1 <= limit <= 100 -> effective_limit limit = limit)
   /\ (100 < limit -> effective_limit limit = 100))
  /\ exists rows b,
      get_messages db q = Ok rows
      /\ search_messages q limit offset db = Return b
      /\ success b = true
      /\ query b = q
      /\ count b = Z.of_nat (length rows)
      /\ count b
         = Z.of_nat
             (Nat.min 50
                (length (filter (fun r => where_clause (lc_lower db) (like_parameter q) r
                                          = Ok true)
                           (fct_messages db))))
      /\ results b = slice rows offset (offset + effective_limit limit)
      /\ (0 <= offset ->
          results b = take (Z.to_nat (effective_limit limit))
                        (drop (Z.to_nat offset) rows))
      /\ Z.of_nat (length (results b)) <= effective_limit limit
      /\ Z.of_nat (length (results b)) <= count b.
Proof.
  pose proof (effective_limit_bounds limit) as Hlim.
  split; [unfold effective_limit; repeat split; lia|].
  destruct (get_messages_capped db q Hserves) as (rows & Hget & _ & Hlen).
  exists rows. eexists. split; [exact Hget|].
  unfold search_messages. rewrite Hget. split; [reflexivity|].
  cbn [success query count results].
  split; [reflexivity|]. split; [reflexivity|]. split; [reflexivity|].
  split; [by rewrite Hlen|]. split; [reflexivity|].
  split.
  { intros Hoffset. rewrite slice_from_the_start by lia. do 2 f_equal. lia. }
  destruct (length_slice rows offset (offset + effective_limit limit)) as [H1 H2];
    [lia|].
  split; lia.
Qed.

Lemma search_messages_served_witness :
  ((150 < 1 -> effective_limit 150 = 1)
   /\ (1 <= 150 <= 100 -> effective_limit 150 = 150)
   /\ (100 < 150 -> effective_limit 150 = 100))
  /\ exists rows b,
      get_messages about_covid "covid" = Ok rows
      /\ search_messages "covid" 150 0 about_covid = Return b
      /\ success b = true
      /\ query b = "covid"
      /\ count b = Z.of_nat (length rows)
      /\ count b
         = Z.of_nat
             (Nat.min 50
                (length (filter (fun r => where_clause (lc_lower about_covid)
                                            (like_parameter "covid") r
                                          = Ok true)
                           (fct_messages about_covid))))
      /\ results b = slice rows 0 (0 + effective_limit 150)
      /\ (0 <= 0 ->
          results b = take (Z.to_nat (effective_limit 150)) (drop (Z.to_nat 0) rows))
      /\ Z.of_nat (length (results b)) <= effective_limit 150
      /\ Z.of_nat (length (results b)) <= count b.
Proof. apply (search_messages_served about_covid "covid" 150 0). reflexivity. Defined.

(** C2, as stated, fails: on a table in which 51 messages match,
    [limit=150] is clamped to 100, yet the response counts 50 matches, not
    51, and returns 50 results. *)
Lemma count_is_not_the_number_of_matches :
  effective_limit 150 = 100
  /\ exists b,
      length (filter (fun r => where_clause (lc_lower about_covid)
                                 (like_parameter "covid") r = Ok true)
                (fct_messages about_covid)) = 51%nat
      /\ search_messages "covid" 150 0 about_covid = Return b
      /\ count b = 50
      /\ length (results b) = 50%nat.
Proof.
  split; [reflexivity|].
  exists (match search_messages "covid" 150 0 about_covid with
          | Return b => b
          | _ => SearchBody false 0 [] ""
          end).
  split; [vm_compute; reflexivity|]. split; [vm_compute; reflexivity|].
  split; vm_compute; reflexivity.
Qed.

(** *** What the WHERE clause of the search matches *)

Lemma like_tokens_plain (q rest : list character) :
  forallb plain q = true ->
  like_tokens (q ++ rest) = List.app (map TLit q) <$> like_tokens rest.
Proof.
  induction q as [|c q IH]; simpl; intros Hq.
  - by destruct (like_tokens rest).
  - apply andb_true_iff in Hq as [Hc Hq]. unfold plain in Hc.
    destruct (is_char "\" c), (is_char "%" c), (is_char "_" c);
      try discriminate.
    rewrite (IH Hq). by destruct (like_tokens rest).
Qed.

Lemma match_tokens_any (ts : list like_token) (t : list character) :
  match_tokens (TAny :: ts) t = true
  <-> exists before after, t = (before ++ after)%list /\ match_tokens ts after = true.
Proof.
  induction t as [|x t IH].
  - simpl. rewrite orb_false_r. split.
    + intros H. by exists [], [].
    + intros (before & after & Heq & H).
      symmetry in Heq. apply app_eq_nil in Heq as [_ ->]. exact H.
  - change (match_tokens (TAny :: ts) (x :: t))
      with (match_tokens ts (x :: t) || match_tokens (TAny :: ts) t).
    rewrite orb_true_iff, IH. split.
    + intros [H | (before & after & -> & H)].
      * by exists [], (x :: t).
      * by exists (x :: before), after.
    + intros (before & after & Heq & H). destruct before as [|y before].
      * left. simpl in Heq. by subst.
      * right. injection Heq as -> ->. by exists before, after.
Qed.

Lemma match_tokens_literal (q : list character) (ts : list like_token)
    (t : list character) :
  match_tokens (map TLit q ++ ts) t = true
  <-> exists after, t = (q ++ after)%list /\ match_tokens ts after = true.
Proof.
  revert t. induction q as [|c q IH]; intros t.
  - simpl. split; [intros H; by exists t | by intros (after & -> & H)].
  - destruct t as [|x t]; simpl.
    + split; [discriminate | by intros (after & Heq & _)].
    + rewrite andb_true_iff, IH, bool_decide_eq_true. split.
      * intros (-> & after & -> & H). by exists after.
      * intros (after & [= -> ->] & H). split; [reflexivity | by exists after].
Qed.

Lemma match_tokens_any_alone (t : list character) : match_tokens [TAny] t = true.
Proof. apply match_tokens_any. exists t, []. by rewrite app_nil_r. Qed.

(** For a query that, lower-cased, has no [%], [_] and backslash, the WHERE
    clause is containment in the letter case of the database. *)
Lemma where_clause_plain_query (lc : character -> character) (q : string)
    (r : fct_message) :
  forallb plain (lowered lc (list_ascii_of_string q)) = true ->
  where_clause lc (like_parameter q) r = Ok true
  <-> exists text, message_text r = Some text /\ contains_lowered lc text q.
Proof.
  intros Hq. unfold where_clause, contains_lowered.
  destruct (message_text r) as [text|].
  2: { split; [discriminate | by intros (? & ? & _)]. }
  unfold ILIKE, LIKE. rewrite lowered_like_parameter.
  change (like_tokens (["%"%char] :: lowered lc (list_ascii_of_string q)
                         ++ [["%"%char]]))
    with (cons TAny <$> like_tokens (lowered lc (list_ascii_of_string q)
                                       ++ [["%"%char]])).
  rewrite like_tokens_plain by exact Hq. simpl.
  split.
  - intros [= H]. exists text. split; [reflexivity|].
    apply match_tokens_any in H as (before & rest & Heq & H).
    apply match_tokens_literal in H as (after & -> & _). by exists before, after.
  - intros (? & [= <-] & before & after & Heq). f_equal.
    apply match_tokens_any.
    exists before, (lowered lc (list_ascii_of_string q) ++ after)%list.
    split; [exact Heq|].
    apply match_tokens_literal. exists after. split; [reflexivity|].
    apply match_tokens_any_alone.
Qed.

(** On ASCII texts the letter case of the database is the ASCII one, and a
    character is a byte. *)
Lemma lowered_ascii (lc : character -> character) (s : list ascii) :
  forallb is_ascii s = true ->
  lowered lc s = map (fun b => [b]) (lower s).
Proof.
  assert (Hlower : forall b, is_ascii (lower_ascii b) = is_ascii b).
  { intros [[] [] [] [] [] [] [] []]; reflexivity. }
  unfold lowered. induction s as [|b s IH]; [reflexivity|].
  cbn [forallb]. intros [Hb Hs]%andb_true_iff.
  change (lower (b :: s)) with (lower_ascii b :: lower s).
  rewrite characters_cons_ascii by (by rewrite Hlower).
  cbn [map]. rewrite (IH Hs). f_equal.
  unfold locale_lower. cbn [forallb]. by rewrite Hlower, Hb.
Qed.

Lemma contains_lowered_ascii (lc : character -> character) (text q : string) :
  forallb is_ascii (list_ascii_of_string text) = true ->
  forallb is_ascii (list_ascii_of_string q) = true ->
  contains_lowered lc text q <-> contains_ci text q.
Proof.
  intros Htext Hq. unfold contains_lowered, contains_ci.
  rewrite !lowered_ascii by assumption. split.
  - intros (before & after & Heq).
    apply fmap_app_inv in Heq as (before' & rest & -> & Hrest & Htext').
    symmetry in Hrest.
    apply fmap_app_inv in Hrest as (q' & after' & Hq' & -> & ->).
    exists before', after'. rewrite Htext'. f_equal. f_equal.
    revert Hq'. generalize (lower (list_ascii_of_string q)). clear.
    intros l. revert q'. induction l as [|x l IH]; intros [|y q']; simpl;
      try done.
    intros [= -> H]. f_equal. by apply IH.
  - intros (before & after & ->).
    exists (map (fun b => [b]) before), (map (fun b => [b]) after).
    by rewrite !map_app.
Qed.

(** X5.  Queries that differ in letter case only return the same rows. *)
Lemma get_messages_case_insensitive (db : Session) (q q' : string) :
  lower (list_ascii_of_string q) = lower (list_ascii_of_string q') ->
  get_messages db q = get_messages db q'.
Proof.
  intros Hcase.
  assert (Hwhere : forall r, where_clause (lc_lower db) (like_parameter q) r
                             = where_clause (lc_lower db) (like_parameter q') r).
  { intros r. unfold where_clause, ILIKE, lowered.
    by rewrite !lower_like_parameter, Hcase. }
  assert (Hsel : forall table, select_where (lc_lower db) (like_parameter q) table
                               = select_where (lc_lower db) (like_parameter q') table).
  { induction table as [|r table IH]; simpl; [reflexivity|].
    by rewrite Hwhere, IH. }
  unfold get_messages, execute, messages_query.
  destruct (execute_fault db); [reflexivity|]. simpl. by rewrite Hsel.
Qed.

(** C9.  The query [_] is bound as the pattern [%_%], in which [_] stands
    for any character: the message [a] matches although it does not
    contain the query. *)
Theorem underscore_matches_any_text :
  get_messages one_letter "_"
    = Ok [MessageRow 1 "13d619c52e5db90ef6a786b69ba3c978" "a" (Some 0) None]
  /\ where_clause (lc_lower one_letter) (like_parameter "_")
       (FctMessage 1 "13d619c52e5db90ef6a786b69ba3c978" (Some "a") (Some 0) None)
     = Ok true
  /\ ~ contains_ci "a" "_".
Proof.
  split; [reflexivity|]. split; [reflexivity|].
  intros (before & after & Heq). simpl in Heq.
  destruct before as [|c before]; [discriminate|].
  destruct before; discriminate.
Qed.

Example eleven_days_ten_entries :
  length (channel_activity_query "13d619c52e5db90ef6a786b69ba3c978"
            (fct_messages eleven_days)) = 10%nat.
Proof. vm_compute. reflexivity. Qed.

End ApiFacts.

(** ** The pipeline *)

Module PipelineFacts.
Import Py Pipeline PipelineScenarios.

Ltac run_graph :=
  unfold execute_job, telegram_pipeline, invoke, invoke_entry,
    mbind, exec_bind; cbv beta zeta.

Ltac next_op H := rewrite H; cbv beta iota zeta.

(** C1.  When the scrape op raises, the run has failed and its only
    execution is the failed scrape, carrying the message of the exception:
    load, transform and enrich are not in the run, and nothing of their
    surroundings is read. *)
Theorem scrape_failure_halts_run (context : resources)
    (world : stage -> surroundings) (e : exn)
    (Hfails : scrape_telegram_data context (world scrape) = Raised e) :
  execute_job context world
  = {| run_status := failed;
       executions := [ {| executed := scrape; input_payload := None;
                          stage_status := failed; output_payload := None;
                          error_message := Some (exn_msg e) |} ] |}
  /\ forall world', world' scrape = world scrape ->
       execute_job context world' = execute_job context world.
Proof.
  split.
  - run_graph. next_op Hfails. reflexivity.
  - intros world' Hsame. run_graph. rewrite Hsame. next_op Hfails. reflexivity.
Qed.

Lemma scrape_failure_halts_run_witness :
  execute_job credentials scrape_exits_1
  = {| run_status := failed;
       executions :=
         [ {| executed := scrape; input_payload := None;
              stage_status := failed; output_payload := None;
              error_message :=
                Some "Scraping failed: Traceback (most recent call last)" |} ] |}
  /\ forall world', world' scrape = scrape_exits_1 scrape ->
       execute_job credentials world' = execute_job credentials scrape_exits_1.
Proof.
  apply (scrape_failure_halts_run credentials scrape_exits_1
           (Exn "Exception" "Scraping failed: Traceback (most recent call last)" [])).
  reflexivity.
Defined.

(** *** Looking for the script *)

Lemma exists_with_child (p : process) (w : surroundings) :
  exists_ (with_child p w) = exists_ w.
Proof. reflexivity. Qed.

Lemma exists_raises (w : surroundings) (e : exn) :
  exists_ w = Raised e ->
  exn_class e = "PermissionError" \/ exn_class e = "OSError".
Proof.
  unfold exists_. destruct (stat_raises w) as [[[] msg]|]; intros [= <-];
    [by left | by right].
Qed.

Lemma exists_returns (w : surroundings) : exists_ w <> Blocked.
Proof. unfold exists_. by destruct (stat_raises w) as [[c msg]|]. Qed.

(** Splits on what [exists()] gave: the look-up raised, the script is
    there, or it is not. *)
Ltac look_for_script w c msg :=
  unfold exists_; cbn [with_child stat_raises path_exists];
  destruct (stat_raises w) as [[c msg]|];
  [| destruct (path_exists w)];
  unfold mbind, outcome_bind; cbv beta iota; cbn [negb].

Lemma yolo_script_missing (context : resources) (w : surroundings)
    (previous_result : gmap string string) :
  exists_ w = Returned false ->
  run_yolo_enrichment context w previous_result
  = Returned {[ "status" := "skipped"; "reason" := "YOLO script not found";
                "timestamp" := utcnow w ]}.
Proof. intros H. unfold run_yolo_enrichment. by rewrite H. Qed.

(** *** The resources of the job *)

Lemma child_env_object (class : string) (config : gmap string (option string))
    (vars : list (string * string)) :
  vars <> [] ->
  child_env (ObjectResource class config) vars
  = Raise (Exn "TypeError" ("'" ++ class ++ "' object is not subscriptable") []).
Proof. destruct vars as [|[name key] vars]; [done | reflexivity]. Qed.

(** With the resources [telegram_job] is built with, no op gets as far as
    its child process: an op whose script is in place raises [TypeError]
    when it subscripts its resource. *)
Lemma op_of_on_job_resources (s : stage) (getenv : string -> option string)
    (w : surroundings) (previous_result : gmap string string) :
  exists_ w = Returned true ->
  exists class,
    op_of s (telegram_job_resources getenv) w previous_result
    = Raised (Exn "TypeError" ("'" ++ class ++ "' object is not subscriptable") [])
    /\ class = (if decide (s = scrape) then "TelegramResource" else "PostgresResource").
Proof.
  intros Hpath.
  destruct s; eexists; (split; [|reflexivity]);
    unfold op_of, scrape_telegram_data, load_raw_to_postgres,
      run_dbt_transformations, run_yolo_enrichment;
    rewrite Hpath; reflexivity.
Qed.

Lemma job_never_starts_child (getenv : string -> option string) (s : stage)
    (w : surroundings) :
  ~ starts_child s (telegram_job_resources getenv) w.
Proof.
  intros [_ [env Henv]]. destruct s; cbn [resource_of vars_of] in Henv;
    unfold telegram_job_resources, telegram_resource, postgres_resource in Henv;
    cbn [telegram postgres] in Henv; rewrite child_env_object in Henv;
    discriminate.
Qed.

Lemma scrape_on_job_resources (getenv : string -> option string) (w : surroundings) :
  exists e,
    scrape_telegram_data (telegram_job_resources getenv) w = Raised e
    /\ exn_class e
       ∈ ["TypeError"; "FileNotFoundError"; "PermissionError"; "OSError"].
Proof.
  destruct (exists_ w) as [[]|e|] eqn:Hstat.
  - destruct (op_of_on_job_resources scrape getenv w ∅ Hstat) as (class & Hop & _).
    eexists. split; [exact Hop | set_solver].
  - unfold scrape_telegram_data. rewrite Hstat. eexists.
    split; [reflexivity | set_solver].
  - unfold scrape_telegram_data. rewrite Hstat. exists e.
    split; [reflexivity|]. destruct (exists_raises w e Hstat) as [-> | ->]; set_solver.
  - by destruct (exists_returns w).
Qed.

(** C5, amended.  When looking for the detection script finds that it is
    missing, the enrich op raises nothing and reads no resource: it returns
    the payload that says [skipped].  When scrape, load and transform have returned before it,
    the run has succeeded with four executions, the last of which is the
    enrich stage, recorded as succeeded like every op that returns, with no
    error message and with that payload.  With the resources the
    repository builds its job with, no run gets that far: the scrape op
    raises, and the run has failed with the scrape as its only execution. *)
Theorem missing_yolo_script_is_skipped (context : resources)
    (world : stage -> surroundings)
    (Hmissing : exists_ (world enrich) = Returned false) :
  (forall previous_result,
      run_yolo_enrichment context (world enrich) previous_result
      = Returned {[ "status" := "skipped"; "reason" := "YOLO script not found";
                    "timestamp" := utcnow (world enrich) ]})
  /\ (forall scraped loaded transformed,
        scrape_telegram_data context (world scrape) = Returned scraped ->
        load_raw_to_postgres context (world load) scraped = Returned loaded ->
        run_dbt_transformations context (world transform) loaded
        = Returned transformed ->
        execute_job context world
        = {| run_status := succeeded;
             executions :=
               [ {| executed := scrape; input_payload := None;
                    stage_status := succeeded; output_payload := Some scraped;
                    error_message := None |};
                 {| executed := load; input_payload := Some scraped;
                    stage_status := succeeded; output_payload := Some loaded;
                    error_message := None |};
                 {| executed := transform; input_payload := Some loaded;
                    stage_status := succeeded; output_payload := Some transformed;
                    error_message := None |};
                 {| executed := enrich; input_payload := Some transformed;
                    stage_status := succeeded;
                    output_payload :=
                      Some {[ "status" := "skipped";
                              "reason" := "YOLO script not found";
                              "timestamp" := utcnow (world enrich) ]};
                    error_message := None |} ] |})
  /\ (forall getenv, context = telegram_job_resources getenv ->
        exists e,
          exn_class e
          ∈ ["TypeError"; "FileNotFoundError"; "PermissionError"; "OSError"]
          /\ execute_job context world
             = {| run_status := failed;
                  executions :=
                    [ {| executed := scrape; input_payload := None;
                         stage_status := failed; output_payload := None;
                         error_message := Some (exn_msg e) |} ] |}).
Proof.
  split; [|split].
  - intros previous_result. by apply yolo_script_missing.
  - intros scraped loaded transformed Hscrape Hload Htransform.
    run_graph. next_op Hscrape. next_op Hload. next_op Htransform.
    next_op (yolo_script_missing context _ transformed Hmissing). reflexivity.
  - intros getenv ->.
    destruct (scrape_on_job_resources getenv (world scrape)) as (e & Hscrape & Hclass).
    exists e. split; [exact Hclass|].
    run_graph. next_op Hscrape. reflexivity.
Qed.

Lemma missing_yolo_script_is_skipped_witness :
  (forall previous_result,
      run_yolo_enrichment credentials (yolo_missing enrich) previous_result
      = Returned {[ "status" := "skipped"; "reason" := "YOLO script not found";
                    "timestamp" := utcnow (yolo_missing enrich) ]})
  /\ (forall scraped loaded transformed,
        scrape_telegram_data credentials (yolo_missing scrape) = Returned scraped ->
        load_raw_to_postgres credentials (yolo_missing load) scraped = Returned loaded ->
        run_dbt_transformations credentials (yolo_missing transform) loaded
        = Returned transformed ->
        execute_job credentials yolo_missing
        = {| run_status := succeeded;
             executions :=
               [ {| executed := scrape; input_payload := None;
                    stage_status := succeeded; output_payload := Some scraped;
                    error_message := None |};
                 {| executed := load; input_payload := Some scraped;
                    stage_status := succeeded; output_payload := Some loaded;
                    error_message := None |};
                 {| executed := transform; input_payload := Some loaded;
                    stage_status := succeeded; output_payload := Some transformed;
                    error_message := None |};
                 {| executed := enrich; input_payload := Some transformed;
                    stage_status := succeeded;
                    output_payload :=
                      Some {[ "status" := "skipped";
                              "reason" := "YOLO script not found";
                              "timestamp" := utcnow (yolo_missing enrich) ]};
                    error_message := None |} ] |})
  /\ (forall getenv, credentials = telegram_job_resources getenv ->
        exists e,
          exn_class e
          ∈ ["TypeError"; "FileNotFoundError"; "PermissionError"; "OSError"]
          /\ execute_job credentials yolo_missing
             = {| run_status := failed;
                  executions :=
                    [ {| executed := scrape; input_payload := None;
                         stage_status := failed; output_payload := None;
                         error_message := Some (exn_msg e) |} ] |}).
Proof. apply (missing_yolo_script_is_skipped credentials yolo_missing). reflexivity. Defined.

(** C5, as stated, fails: no execution of any run is ever recorded with
    status [skipped]; and in a run in which scrape, load and transform have
    succeeded and the detection script is missing, the enrich execution has
    succeeded, [skipped] being a word in the payload it returned. *)
Lemma skipped_is_not_a_status :
  (forall context world ex,
      ex ∈ executions (execute_job context world) -> stage_status ex <> skipped)
  /\ exists_ (yolo_missing enrich) = Returned false
  /\ exists first second third last,
       execute_job credentials yolo_missing
       = {| run_status := succeeded; executions := [first; second; third; last] |}
       /\ map executed [first; second; third; last] = [scrape; load; transform; enrich]
       /\ Forall (fun ex => stage_status ex = succeeded) [first; second; third]
       /\ output_payload last
          = Some {[ "status" := "skipped"; "reason" := "YOLO script not found";
                    "timestamp" := utcnow (yolo_missing enrich) ]}
       /\ error_message last = None
       /\ stage_status last = succeeded
       /\ stage_status last <> skipped.
Proof.
  split.
  { intros context world ex. run_graph.
    destruct (scrape_telegram_data context (world scrape)) as [p1|e1|];
      cbv beta iota zeta;
      [destruct (load_raw_to_postgres context (world load) p1) as [p2|e2|];
       cbv beta iota zeta;
       [destruct (run_dbt_transformations context (world transform) p2)
          as [p3|e3|];
        cbv beta iota zeta;
        [destruct (run_yolo_enrichment context (world enrich) p3) as [p4|e4|];
         cbv beta iota zeta | |] | |] | |].
    all: cbn [executions app]; intros Hex.
    all: repeat (apply elem_of_cons in Hex as [-> | Hex]);
      try (by apply elem_of_nil in Hex).
    all: discriminate. }
  split; [reflexivity|].
  do 4 eexists. split; [reflexivity|].
  split; [reflexivity|]. split; [by repeat constructor|].
  split; [reflexivity|]. split; [reflexivity|]. split; [reflexivity | discriminate].
Qed.

(** With the resources of the repository no run reaches the load stage,
    whatever the environment and the file system. *)
Example job_fails_in_scrape (world : stage -> surroundings) :
  run_status (execute_job (telegram_job_resources dotenv) world) = failed
  /\ map executed (executions (execute_job (telegram_job_resources dotenv) world))
     = [scrape].
Proof.
  destruct (scrape_on_job_resources dotenv (world scrape)) as (e & Hscrape & _).
  run_graph. next_op Hscrape. by split.
Qed.

(** C6.  The executions of a run are the first [n >= 1] stages of
    scrape, load, transform, enrich, in that order; the entry stage
    receives no input, and every later execution received exactly the
    payload the execution before it produced. *)
Theorem executions_follow_the_graph (context : resources)
    (world : stage -> surroundings) :
  (exists n, (1 <= n)%nat
     /\ map executed (executions (execute_job context world))
        = take n [scrape; load; transform; enrich])
  /\ (forall first, executions (execute_job context world) !! 0%nat = Some first ->
        input_payload first = None)
  /\ forall (i : nat) (before this : StageExecution),
       executions (execute_job context world) !! i = Some before ->
       executions (execute_job context world) !! S i = Some this ->
       exists p, output_payload before = Some p /\ input_payload this = Some p.
Proof.
  run_graph.
  destruct (scrape_telegram_data context (world scrape)) as [p1|e1|];
    cbv beta iota zeta;
    [destruct (load_raw_to_postgres context (world load) p1) as [p2|e2|];
     cbv beta iota zeta;
     [destruct (run_dbt_transformations context (world transform) p2) as [p3|e3|];
      cbv beta iota zeta;
      [destruct (run_yolo_enrichment context (world enrich) p3) as [p4|e4|];
       cbv beta iota zeta | |] | |] | |].
  all: split;
    [ first [ exists 1%nat; split; [lia | reflexivity]
            | exists 2%nat; split; [lia | reflexivity]
            | exists 3%nat; split; [lia | reflexivity]
            | exists 4%nat; split; [lia | reflexivity] ]
    | split;
      [ intros first; simpl; by intros [= <-]
      | intros i before this; simpl;
        repeat (destruct i as [|i]; simpl; try discriminate);
        intros [= <-] [= <-]; eexists; split; reflexivity ] ].
Qed.

(** *** No timeout *)

Lemma getitem_raises (r : resource) (key : string) (e : exn) :
  getitem r key = Raise e -> exn_class e = "KeyError" \/ exn_class e = "TypeError".
Proof.
  unfold getitem. destruct r as [d | class config].
  - destruct (d !! key); [discriminate|]. intros [= <-]. by left.
  - intros [= <-]. by right.
Qed.

Lemma child_env_raises (r : resource) (vars : list (string * string)) (e : exn) :
  child_env r vars = Raise e ->
  exn_class e = "KeyError" \/ exn_class e = "TypeError".
Proof.
  unfold child_env.
  destruct (mapM _ vars) as [bound|e'] eqn:Hbound; simpl.
  - destruct (mapM _ bound); [discriminate|]. intros [= <-]. by right.
  - intros [= <-]. clear -Hbound.
    revert e' Hbound. induction vars as [|[name key] vars IH]; simpl; intros e'.
    + discriminate.
    + unfold mbind at 1, result_bind, bind at 1.
      destruct (getitem r key) as [v|e0] eqn:Hget; simpl.
      * destruct (mapM _ vars) as [rest|e1]; simpl; [discriminate|].
        intros [= <-]. by apply IH.
      * intros [= <-]. by eapply getitem_raises.
Qed.

(** How long the child ran is not looked at. *)
Lemma op_of_ignores_duration (s : stage) (context : resources) (w : surroundings)
    (previous_result : gmap string string) (rc : Z) (err : string)
    (seconds seconds' : Z) :
  op_of s context (with_child (Exits rc err seconds) w) previous_result
  = op_of s context (with_child (Exits rc err seconds') w) previous_result.
Proof. destruct s; reflexivity. Qed.

Ltac open_op :=
  unfold op_of, scrape_telegram_data, load_raw_to_postgres,
    run_dbt_transformations, run_yolo_enrichment;
  cbn [with_child child path utcnow].

Lemma run_error_is_no_timeout (c : run_error) :
  run_error_class c <> "TimeoutExpired".
Proof. destruct c; discriminate. Qed.

Lemma op_of_never_times_out (s : stage) (context : resources) (w : surroundings)
    (previous_result : gmap string string) (e : exn) :
  op_of s context w previous_result = Raised e ->
  exn_class e <> "TimeoutExpired".
Proof.
  destruct s; open_op.
  all: look_for_script w c0 msg0;
    [ intros [= <-]; destruct c0; discriminate
    | | first [ by intros [= <-] | discriminate ] ].
  all: match goal with
       | |- context [child_env ?d ?vars] =>
           destruct (child_env d vars) as [env|e'] eqn:Henv
       end; cbn [lift mbind outcome_bind].
  all: try (intros [= <-]; destruct (child_env_raises _ _ _ Henv) as [-> | ->];
            discriminate).
  all: destruct (child w) as [rc err secs| |c msg];
    unfold subprocess_run, mbind, outcome_bind; cbv beta iota;
    [| discriminate | intros [= <-]; apply run_error_is_no_timeout ].
  all: cbn [returncode stderr]; destruct (negb (rc =? 0));
    [ by intros [= <-] | discriminate ].
Qed.

Lemma op_of_waits_for_ever (s : stage) (context : resources) (w : surroundings)
    (previous_result : gmap string string) :
  op_of s context (with_child Hangs w) previous_result = Blocked
  \/ forall p, op_of s context (with_child p w) previous_result
               = op_of s context w previous_result.
Proof.
  destruct s; open_op.
  all: look_for_script w c0 msg0; [ by right | | by right ].
  all: match goal with
       | |- context [child_env ?d ?vars] =>
           destruct (child_env d vars) as [env|e'] eqn:Henv
       end; unfold lift, subprocess_run, mbind, outcome_bind; cbv beta iota;
    [by left | by right].
Qed.

(** What an op that starts its child makes of it. *)
Lemma op_of_started (s : stage) (context : resources) (w : surroundings)
    (previous_result : gmap string string) :
  starts_child s context w ->
  (child w = Hangs -> op_of s context w previous_result = Blocked)
  /\ (forall err seconds, child w = Exits 0 err seconds ->
        op_of s context w previous_result = Returned (success w))
  /\ (forall rc err seconds, child w = Exits rc err seconds -> rc <> 0 ->
        exists prefix,
          op_of s context w previous_result
          = Raised (Exn "Exception" (prefix ++ err) []))
  /\ (forall c msg, child w = Fails c msg ->
        op_of s context w previous_result = Raised (Exn (run_error_class c) msg [])).
Proof.
  intros [Hpath [env Henv]].
  destruct s; cbn [resource_of vars_of] in Henv; open_op;
    rewrite Hpath, Henv; cbn [negb lift]; unfold mbind, outcome_bind;
    cbv beta iota.
  all: split; [by intros ->|].
  all: split; [by intros err seconds ->|].
  all: split; [|by intros c msg ->].
  all: intros rc err seconds -> Hrc; cbn [subprocess_run returncode stderr];
    destruct (Z.eqb_spec rc 0); [done|]; cbn [negb]; by eexists.
Qed.

(** C3, as stated, fails: whatever budget each stage is given, a scrape
    that starts its script, which runs one second longer than the budget
    and exits with code 0, is not reported as a Timeout failure (it has
    succeeded). *)
Lemma no_budget_is_enforced : ~ exists budget, enforces_timeout budget.
Proof.
  intros [budget Henforced].
  destruct (Henforced scrape credentials
              (with_child (Exits 0 "" (budget scrape + 1)) (all_exit (fun _ => 0) scrape))
              ∅) as [e [Hraised _]].
  - split; [reflexivity|]. eexists. vm_compute. reflexivity.
  - right. exists 0, "", (budget scrape + 1). split; [reflexivity | lia].
  - rewrite (op_of_ignores_duration _ _ _ _ _ _ _ 0) in Hraised.
    vm_compute in Hraised. discriminate.
Qed.

Ltac hanging_stage H :=
  let Hb := fresh in
  cbn [record_of executed] in H;
  first
    [ pose proof (H ∅) as Hb; cbn [op_of] in Hb; congruence
    | match goal with
      | Hop : _ = ?o |- _ =>
          match type of Hop with
          | _ _ _ ?p = _ => pose proof (H p) as Hb; cbn [op_of] in Hb; congruence
          end
      end ].

(** C3, amended.  No stage enforces a timeout: the outcome of an op does
    not depend on how long its child process runs; no op ever fails with
    [TimeoutExpired]; an op that has started a child which never exits
    never returns; and the run it belongs to stays running, with that
    stage as its last execution, recorded as running, without payload and
    without error.  (With the resources the repository builds its job
    with, no op gets as far as starting its child.) *)
Theorem stages_run_without_timeout (s : stage) (context : resources)
    (w : surroundings) (previous_result : gmap string string) :
  (forall rc err seconds seconds',
      op_of s context (with_child (Exits rc err seconds) w) previous_result
      = op_of s context (with_child (Exits rc err seconds') w) previous_result)
  /\ (forall e, op_of s context w previous_result = Raised e ->
                exn_class e <> "TimeoutExpired")
  /\ (starts_child s context w ->
      op_of s context (with_child Hangs w) previous_result = Blocked)
  /\ (op_of s context (with_child Hangs w) previous_result = Blocked
      \/ forall p, op_of s context (with_child p w) previous_result
                   = op_of s context w previous_result)
  /\ (forall (world : stage -> surroundings) (ex : StageExecution),
        ex ∈ executions (execute_job context world) ->
        starts_child (executed ex) context (world (executed ex)) ->
        child (world (executed ex)) = Hangs ->
        stage_status ex = running
        /\ output_payload ex = None
        /\ error_message ex = None
        /\ last (executions (execute_job context world)) = Some ex
        /\ run_status (execute_job context world) = running)
  /\ (forall getenv, context = telegram_job_resources getenv ->
        ~ starts_child s context w).
Proof.
  split; [|split; [|split; [|split; [|split]]]].
  6: { intros getenv ->. apply job_never_starts_child. }
  - intros. apply op_of_ignores_duration.
  - intros e. apply op_of_never_times_out.
  - intros [Hpath Henv].
    by apply (op_of_started s context (with_child Hangs w) previous_result).
  - apply op_of_waits_for_ever.
  - intros world ex Hex Hstarts Hhangs.
    assert (Hblocked : forall previous,
               op_of (executed ex) context (world (executed ex)) previous = Blocked).
    { intros previous. by apply op_of_started. }
    clear Hstarts Hhangs. revert Hex. run_graph.
    destruct (scrape_telegram_data context (world scrape)) as [p1|e1|] eqn:H1;
      cbv beta iota zeta;
      [destruct (load_raw_to_postgres context (world load) p1) as [p2|e2|] eqn:H2;
       cbv beta iota zeta;
       [destruct (run_dbt_transformations context (world transform) p2)
          as [p3|e3|] eqn:H3;
        cbv beta iota zeta;
        [destruct (run_yolo_enrichment context (world enrich) p3)
           as [p4|e4|] eqn:H4;
         cbv beta iota zeta | |] | |] | |].
    all: cbn [executions run_status app]; intros Hex.
    all: repeat (apply elem_of_cons in Hex as [-> | Hex]);
      try (by apply elem_of_nil in Hex).
    all: try hanging_stage Hblocked.
    all: by repeat split.
Qed.

(** A scrape that takes a year is a scrape that succeeded; one that hangs
    keeps the run running. *)
Example one_year_scrape :
  scrape_telegram_data credentials
    (with_child (Exits 0 "" 31536000) (all_exit (fun _ => 0) scrape))
  = Returned (success (all_exit (fun _ => 0) scrape)).
Proof. reflexivity. Qed.

Example hanging_scrape :
  run_status (execute_job credentials
                (fun s => with_child Hangs (all_exit (fun _ => 0) s)))
  = running.
Proof. reflexivity. Qed.

End PipelineFacts.

(** ** Connecting to Telegram *)

Module TelegramServiceFacts.
Import Py TelegramService TelegramScenarios.

Ltac attempt n H :=
  match goal with
  | |- context [try_block (?world n) ?s'] =>
      let s1 := fresh "s" in
      let r := fresh "r" in
      destruct (try_block (world n) s') as [s1 r] eqn:H
  end.









Example connect_unreachable :
  events (connect false (fun _ => unreachable) fresh) = exhausted
  /\ raised (connect false (fun _ => unreachable) fresh)
     = Some (Exn "ConnectionError" "Connection to Telegram failed" []).
Proof. split; reflexivity. Qed.

(** A cancelled task is not retried: the first attempt is the last, and
    there is no sleep. *)
Example connect_cancelled :
  events (connect false (fun _ => cancelled) fresh) = [Attempt 0]
  /\ raised (connect false (fun _ => cancelled) fresh)
     = Some (Exn "CancelledError" "" []).
Proof. split; reflexivity. Qed.

Example connect_cancelled_asleep :
  events (connect false (fun _ => cancelled_asleep) fresh) = [Attempt 0; Sleep 5]
  /\ raised (connect false (fun _ => cancelled_asleep) fresh)
     = Some (Exn "CancelledError" "" []).
Proof. split; reflexivity. Qed.

End TelegramServiceFacts.


(** ** More on the two queries *)

Module QueryFacts.
Import Py Crud Api ApiFacts Aux.

(** *** Sorting *)

Lemma insert_by_perm {A} (le : A -> A -> bool) (x : A) (l : list A) :
  insert_by le x l ≡ₚ x :: l.
Proof.
  induction l as [|y l IH]; simpl; [reflexivity|].
  destruct (le x y); [reflexivity|].
  rewrite IH. apply Permutation_swap.
Qed.

Lemma sort_by_perm {A} (le : A -> A -> bool) (l : list A) :
  sort_by le l ≡ₚ l.
Proof.
  induction l as [|x l IH]; simpl; [reflexivity|].
  unfold sort_by in *. simpl. by rewrite insert_by_perm, IH.
Qed.

Section Sorted.
Context {A : Type} (le : A -> A -> bool).
Hypothesis le_total : forall a b, le a b = true \/ le b a = true.
Hypothesis le_trans : forall a b c, le a b = true -> le b c = true -> le a c = true.

Lemma insert_by_sorted (x : A) (l : list A) :
  StronglySorted (fun a b => le a b = true) l ->
  StronglySorted (fun a b => le a b = true) (insert_by le x l).
Proof.
  induction 1 as [|y l Hl IH Hy]; simpl.
  - repeat constructor.
  - destruct (le x y) eqn:Hxy.
    + constructor; [by constructor|].
      constructor; [exact Hxy|].
      eapply Forall_impl; [exact Hy|]. intros z Hz. by eapply le_trans.
    + constructor; [exact IH|].
      rewrite (insert_by_perm le x l). constructor; [|exact Hy].
      destruct (le_total x y); congruence.
Qed.

Lemma sort_by_sorted (l : list A) :
  StronglySorted (fun a b => le a b = true) (sort_by le l).
Proof.
  induction l as [|x l IH]; [constructor|].
  by apply insert_by_sorted.
Qed.
End Sorted.

Lemma asc_le_total (a b : option Z) : asc_le a b = true \/ asc_le b a = true.
Proof. destruct a, b; simpl; auto; lia. Qed.

Lemma asc_le_trans (a b c : option Z) :
  asc_le a b = true -> asc_le b c = true -> asc_le a c = true.
Proof. destruct a, b, c; simpl; try done; lia. Qed.

Lemma StronglySorted_take {A} (R : A -> A -> Prop) (n : nat) (l : list A) :
  StronglySorted R l -> StronglySorted R (take n l).
Proof.
  intros H. revert n. induction H as [|x l Hl IH Hx]; intros [|n]; simpl;
    try constructor; auto.
  eapply Forall_take; eauto.
Qed.

(** *** Grouping *)

Lemma date_eqb_eq (a b : option Z) : date_eqb a b = true <-> a = b.
Proof.
  destruct a, b; simpl; try (split; congruence).
  rewrite Z.eqb_eq. split; congruence.
Qed.

Lemma existsb_date_eqb (x : option Z) (l : list (option Z)) :
  existsb (date_eqb x) l = true <-> x ∈ l.
Proof.
  rewrite existsb_exists. split.
  - intros (y & Hin & Heq). apply date_eqb_eq in Heq as ->. by apply list_elem_of_In.
  - intros Hin. exists x. split; [by apply list_elem_of_In | by apply date_eqb_eq].
Qed.

Lemma elem_of_distinct (x : option Z) (l : list (option Z)) :
  x ∈ distinct l <-> x ∈ l.
Proof.
  induction l as [|y l IH]; simpl; [reflexivity|].
  destruct (existsb (date_eqb y) l) eqn:Hy.
  - rewrite IH, elem_of_cons. apply existsb_date_eqb in Hy.
    split; [auto|]. by intros [-> | ?].
  - by rewrite !elem_of_cons, IH.
Qed.

Lemma NoDup_distinct (l : list (option Z)) : NoDup (distinct l).
Proof.
  induction l as [|y l IH]; simpl; [constructor|].
  destruct (existsb (date_eqb y) l) eqn:Hy; [exact IH|].
  constructor; [|exact IH].
  rewrite elem_of_distinct, <- existsb_date_eqb. congruence.
Qed.

Lemma count_of_cons (d x : option Z) (l : list (option Z)) :
  count_of d (x :: l) = count_of d l + (if date_eqb d x then 1 else 0).
Proof.
  unfold count_of. rewrite filter_cons.
  destruct (date_eqb d x) eqn:Hd; case_decide; try congruence;
    simpl length; lia.
Qed.

Lemma count_of_positive (d : option Z) (l : list (option Z)) :
  d ∈ l -> 1 <= count_of d l.
Proof.
  induction 1 as [x l | x y l _ IH]; rewrite count_of_cons.
  - rewrite (proj2 (date_eqb_eq x x) eq_refl). unfold count_of. lia.
  - destruct (date_eqb x y); lia.
Qed.

Lemma count_of_absent (d : option Z) (l : list (option Z)) :
  d ∉ l -> count_of d l = 0.
Proof.
  induction l as [|x l IH]; intros Hd; [reflexivity|].
  rewrite count_of_cons, IH by set_solver.
  destruct (date_eqb d x) eqn:Heq; [|reflexivity].
  apply date_eqb_eq in Heq. set_solver.
Qed.

Lemma total_hits (x : option Z) (ds : list (option Z)) :
  NoDup ds ->
  total (map (fun d => if date_eqb d x then 1 else 0) ds)
  = if decide (x ∈ ds) then 1 else 0.
Proof.
  induction 1 as [|d ds Hd Hds IH]; cbn [map total foldr].
  - case_decide; [set_solver | reflexivity].
  - fold (total (map (fun d => if date_eqb d x then 1 else 0) ds)).
    rewrite IH. destruct (date_eqb d x) eqn:Heq.
    + apply date_eqb_eq in Heq as ->.
      repeat case_decide; try lia; rewrite ?elem_of_cons in *; intuition congruence.
    + assert (d <> x) by (intros ->; by rewrite (proj2 (date_eqb_eq x x) eq_refl) in Heq).
      repeat case_decide; try lia; rewrite ?elem_of_cons in *; intuition congruence.
Qed.

Lemma total_map_add {A} (f g : A -> Z) (l : list A) :
  total (map (fun a => f a + g a) l) = total (map f l) + total (map g l).
Proof. induction l as [|a l IH]; simpl; lia. Qed.

Lemma total_counts_cons (x : option Z) (l ds : list (option Z)) :
  NoDup ds ->
  total (map (fun d => count_of d (x :: l)) ds)
  = total (map (fun d => count_of d l) ds) + (if decide (x ∈ ds) then 1 else 0).
Proof.
  intros Hds. rewrite <- (total_hits x ds Hds), <- total_map_add.
  f_equal. apply map_ext. intros d. apply count_of_cons.
Qed.

(** Every row of the column is counted in exactly one group. *)
Lemma total_counts_distinct (l : list (option Z)) :
  total (map (fun d => count_of d l) (distinct l)) = Z.of_nat (length l).
Proof.
  induction l as [|x l IH]; [reflexivity|].
  cbn [distinct]. destruct (existsb (date_eqb x) l) eqn:Hx.
  - rewrite total_counts_cons by apply NoDup_distinct.
    rewrite decide_True by (by apply elem_of_distinct, existsb_date_eqb).
    rewrite IH. simpl length. lia.
  - assert (x ∉ l) by (rewrite <- existsb_date_eqb; congruence).
    cbn [map total foldr]. fold (total (map (fun d => count_of d (x :: l)) (distinct l))).
    rewrite total_counts_cons by apply NoDup_distinct.
    rewrite decide_False by (by rewrite elem_of_distinct).
    rewrite IH, count_of_cons, count_of_absent by done.
    rewrite (proj2 (date_eqb_eq x x) eq_refl). simpl length. lia.
Qed.

Lemma total_perm (l k : list Z) : l ≡ₚ k -> total l = total k.
Proof. induction 1; simpl; lia. Qed.

Lemma total_take_le (n : nat) (l : list Z) :
  Forall (fun c => 0 <= c) l -> total (take n l) <= total l.
Proof.
  intros H. revert n. induction H as [|c l Hc Hl IH]; intros [|n]; simpl; try lia.
  - assert (0 <= total l); [|unfold total in *; lia].
    clear -Hl. induction Hl; simpl; lia.
  - specialize (IH n). unfold total in *. lia.
Qed.

Lemma count_of_messages (d : option Z) (msgs : list fct_message) :
  count_of d (map (fun r => DATE (media_date r)) msgs)
  = Z.of_nat (length (filter (fun m => DATE (media_date m) = d) msgs)).
Proof.
  unfold count_of. f_equal.
  induction msgs as [|m msgs IH]; [reflexivity|].
  cbn [map]. rewrite !filter_cons.
  destruct (date_eqb d (DATE (media_date m))) eqn:Hd.
  - apply date_eqb_eq in Hd. rewrite !decide_True by done. simpl. by rewrite IH.
  - assert (DATE (media_date m) <> d).
    { intros <-. by rewrite (proj2 (date_eqb_eq _ _) eq_refl) in Hd. }
    rewrite !decide_False by congruence. exact IH.
Qed.

(** X1.  The rows of the activity query come in ascending order of date, a NULL
    date last, and no date occurs twice. *)
Theorem activity_rows_ordered_by_distinct_dates (channel : string)
    (table : list fct_message) :
  StronglySorted (fun a b => asc_le (date a) (date b) = true)
    (channel_activity_query channel table)
  /\ NoDup (map date (channel_activity_query channel table)).
Proof.
  unfold channel_activity_query, LIMIT. split.
  - apply StronglySorted_take.
    apply (sort_by_sorted (fun a b => asc_le (date a) (date b))).
    + intros a b. apply asc_le_total.
    + intros a b c. apply asc_le_trans.
  - rewrite (fmap_take date).
    eapply sublist_NoDup; [|apply sublist_take].
    rewrite sort_by_perm, map_map. simpl. rewrite map_id. apply NoDup_distinct.
Qed.

(** X2.  Each row of the activity query counts the messages of the channel on
    its day, at least one; together the rows count no message twice, and
    they count every message of the channel when it was active on at most
    ten different days. *)
Theorem activity_counts_messages_per_day (channel : string)
    (table : list fct_message) :
  Forall (fun r =>
            message_count r
            = Z.of_nat (length (filter (fun m => DATE (media_date m) = date r)
                                  (filter (fun m => channel_id m = channel) table)))
            /\ 1 <= message_count r)
    (channel_activity_query channel table)
  /\ total (map message_count (channel_activity_query channel table))
     <= Z.of_nat (length (filter (fun m => channel_id m = channel) table))
  /\ ((length (distinct (map (fun m => DATE (media_date m))
                           (filter (fun m => channel_id m = channel) table)))
       <= 10)%nat ->
      total (map message_count (channel_activity_query channel table))
      = Z.of_nat (length (filter (fun m => channel_id m = channel) table))).
Proof.
  unfold channel_activity_query, LIMIT.
  set (msgs := filter (fun m => channel_id m = channel) table).
  set (dates := map (fun r => DATE (media_date r)) msgs).
  set (groups := map (fun d => ActivityRow d (count_of d dates)) (distinct dates)).
  set (sorted := sort_by (fun a b => asc_le (date a) (date b)) groups).
  assert (Hgroups : Forall (fun r =>
            message_count r
            = Z.of_nat (length (filter (fun m => DATE (media_date m) = date r) msgs))
            /\ 1 <= message_count r) groups).
  { apply Forall_forall. intros r Hr.
    apply list_elem_of_fmap in Hr as (d & -> & Hd). simpl.
    split; [apply count_of_messages|].
    apply count_of_positive. by apply elem_of_distinct. }
  assert (Hsorted : Forall (fun r =>
            message_count r
            = Z.of_nat (length (filter (fun m => DATE (media_date m) = date r) msgs))
            /\ 1 <= message_count r) sorted).
  { unfold sorted. by rewrite sort_by_perm. }
  assert (Htotal : total (map message_count sorted) = Z.of_nat (length msgs)).
  { rewrite (total_perm _ (map message_count groups)).
    - unfold groups. rewrite map_map. simpl.
      rewrite total_counts_distinct. unfold dates. by rewrite length_map.
    - apply Permutation_map. apply sort_by_perm. }
  split; [by apply Forall_take|]. split.
  - rewrite <- Htotal, (fmap_take message_count). apply total_take_le.
    apply Forall_fmap. eapply Forall_impl; [exact Hsorted|].
    intros r [_ Hr]. simpl. lia.
  - intros Hfew. rewrite take_ge; [exact Htotal|].
    unfold sorted, groups. rewrite length_sort_by, length_map. exact Hfew.
Qed.

End QueryFacts.

(** ** More on the search *)

Module SearchFacts.
Import Py Crud Api ApiFacts ApiScenarios QueryFacts.

Lemma desc_le_total (a b : option Z) : desc_le a b = true \/ desc_le b a = true.
Proof. unfold desc_le. apply asc_le_total. Qed.

Lemma desc_le_trans (a b c : option Z) :
  desc_le a b = true -> desc_le b c = true -> desc_le a c = true.
Proof. unfold desc_le. intros Hab Hbc. by eapply asc_le_trans. Qed.

Lemma omap_to_message_row (rows : list fct_message) :
  Forall (fun r => is_Some (message_text r)) rows ->
  Forall2 (fun r row => to_message_row r = Some row
                        /\ row_media_date row = media_date r)
    rows (omap to_message_row rows).
Proof.
  induction 1 as [|r rows [text Htext] _ IH]; simpl; [constructor|].
  destruct (to_message_row r) as [row|] eqn:Hrow.
  - constructor; [|exact IH]. split; [exact Hrow|].
    unfold to_message_row in Hrow. rewrite Htext in Hrow. simpl in Hrow.
    by injection Hrow as <-.
  - unfold to_message_row in Hrow. rewrite Htext in Hrow. discriminate.
Qed.

Lemma StronglySorted_split {A} (R : A -> A -> Prop) (n : nat) (l : list A) :
  StronglySorted R l ->
  Forall (fun a => Forall (R a) (drop n l)) (take n l).
Proof.
  intros H. revert n. induction H as [|x l Hl IH Hx]; intros [|n]; simpl;
    try constructor; auto.
  by apply Forall_drop.
Qed.

Lemma get_messages_kept (db : Session) (q : string)
    (Hserves : execute_fault db = None) :
  exists kept rest : list fct_message,
    (kept ++ rest)%list
      ≡ₚ filter (fun r => where_clause (lc_lower db) (like_parameter q) r = Ok true)
           (fct_messages db)
    /\ get_messages db q = Ok (omap to_message_row kept)
    /\ Forall2 (fun r row => to_message_row r = Some row) kept
         (omap to_message_row kept)
    /\ length kept
       = Nat.min 50
           (length (filter (fun r => where_clause (lc_lower db) (like_parameter q) r
                                     = Ok true)
                      (fct_messages db)))
    /\ StronglySorted (fun a b => desc_le (media_date a) (media_date b) = true) kept
    /\ Forall (fun a => Forall (fun b => desc_le (media_date a) (media_date b) = true)
                          rest) kept.
Proof.
  destruct (get_messages_capped db q Hserves) as (rows & Hget & -> & _).
  set (matched := filter (fun r => where_clause (lc_lower db) (like_parameter q) r
                                   = Ok true) (fct_messages db)) in *.
  set (sorted := sort_by (fun a b => desc_le (media_date a) (media_date b)) matched)
    in *.
  assert (Hsorted : StronglySorted
            (fun a b => desc_le (media_date a) (media_date b) = true) sorted).
  { apply (sort_by_sorted (fun a b => desc_le (media_date a) (media_date b))).
    - intros a b. apply desc_le_total.
    - intros a b c. apply desc_le_trans. }
  exists (take 50 sorted), (drop 50 sorted).
  rewrite take_drop. split; [|repeat split].
  - apply sort_by_perm.
  - exact Hget.
  - eapply Forall2_impl; [apply omap_to_message_row | by intros ? ? [? _]].
    apply Forall_take, Forall_sort_by, Forall_forall.
    intros r Hr. apply list_elem_of_filter in Hr as [Hr _].
    by eapply where_clause_not_null.
  - unfold sorted. by rewrite length_take, length_sort_by.
  - by apply StronglySorted_take.
  - by apply StronglySorted_split.
Qed.

(** X3.  What [get_messages] returns is what the table holds.  The rows of
    the table that pass the WHERE clause, each as often as the table has
    it, split into those kept and the rest; the kept ones are returned, in
    descending order of [media_date] (NULL first); there are [min 50 n] of
    them when [n] rows pass; and each is at least as recent as every row
    left out. *)
Theorem get_messages_keeps_the_most_recent (db : Session) (q : string)
    (Hserves : execute_fault db = None) :
  exists kept rest : list fct_message,
    (kept ++ rest)%list
      ≡ₚ filter (fun r => where_clause (lc_lower db) (like_parameter q) r = Ok true)
           (fct_messages db)
    /\ get_messages db q = Ok (omap to_message_row kept)
    /\ Forall2 (fun r row => to_message_row r = Some row) kept
         (omap to_message_row kept)
    /\ length kept
       = Nat.min 50
           (length (filter (fun r => where_clause (lc_lower db) (like_parameter q) r
                                     = Ok true)
                      (fct_messages db)))
    /\ StronglySorted (fun a b => desc_le (media_date a) (media_date b) = true) kept
    /\ Forall (fun a => Forall (fun b => desc_le (media_date a) (media_date b) = true)
                          rest) kept.
Proof.
  destruct (get_messages_kept db q Hserves)
    as (kept & rest & Hperm & Hget & Hrows & Hlen & Hsorted & Hrecent).
  exists kept, rest.
  split; [exact Hperm|]. split; [exact Hget|]. split; [exact Hrows|].
  split; [exact Hlen|]. split; [exact Hsorted | exact Hrecent].
Qed.

Lemma get_messages_keeps_the_most_recent_witness :
  exists kept rest : list fct_message,
    (kept ++ rest)%list
      ≡ₚ filter (fun r => where_clause (lc_lower about_covid)
                            (like_parameter "covid") r = Ok true)
           (fct_messages about_covid)
    /\ get_messages about_covid "covid" = Ok (omap to_message_row kept)
    /\ Forall2 (fun r row => to_message_row r = Some row) kept
         (omap to_message_row kept)
    /\ length kept
       = Nat.min 50
           (length (filter (fun r => where_clause (lc_lower about_covid)
                                       (like_parameter "covid") r = Ok true)
                      (fct_messages about_covid)))
    /\ StronglySorted (fun a b => desc_le (media_date a) (media_date b) = true) kept
    /\ Forall (fun a => Forall (fun b => desc_le (media_date a) (media_date b) = true)
                          rest) kept.
Proof. apply (get_messages_keeps_the_most_recent about_covid "covid"). reflexivity. Defined.

(** *** Plain queries *)

(** X4.  For a query that, lower-cased as the database lower-cases it, has
    no [%], [_] and backslash, the search is containment in the letter case
    of the database: the rows returned are rows of the table, none more
    often than the table has it; the text of each contains the query; and
    when fewer than 50 are returned, every message of the table whose text
    contains the query is among them.  On ASCII text this containment is
    the one of the specification: substring, ASCII letter case apart. *)
Theorem plain_query_is_substring_search (db : Session) (q : string)
    (Hplain : forallb plain (lowered (lc_lower db) (list_ascii_of_string q)) = true)
    (Hserves : execute_fault db = None) :
  exists kept : list fct_message,
    get_messages db q = Ok (omap to_message_row kept)
    /\ kept ⊆+ fct_messages db
    /\ Forall (fun r => exists text, message_text r = Some text
                                     /\ contains_lowered (lc_lower db) text q) kept
    /\ ((length kept < 50)%nat ->
        forall r text, r ∈ fct_messages db -> message_text r = Some text ->
                       contains_lowered (lc_lower db) text q -> r ∈ kept)
    /\ forall text : string,
         forallb is_ascii (list_ascii_of_string text) = true ->
         forallb is_ascii (list_ascii_of_string q) = true ->
         contains_lowered (lc_lower db) text q <-> contains_ci text q.
Proof.
  destruct (get_messages_kept db q Hserves)
    as (kept & rest & Hperm & Hget & _ & Hlen & _ & _).
  exists kept. split; [exact Hget|]. split; [|split; [|split]].
  - transitivity (kept ++ rest)%list; [by apply submseteq_inserts_r|].
    rewrite Hperm. apply sublist_submseteq, sublist_filter.
  - apply Forall_forall. intros r Hr.
    assert (Hboth : r ∈ (kept ++ rest)%list) by (apply elem_of_app; by left).
    rewrite Hperm in Hboth. apply list_elem_of_filter in Hboth as [Hwhere _].
    by apply where_clause_plain_query in Hwhere.
  - intros Hfew r text Hdb Htext Hcontains.
    assert (Hrest : rest = []).
    { apply Permutation_length in Hperm. rewrite length_app in Hperm.
      destruct rest; [reflexivity | cbn [length] in Hperm; lia]. }
    assert (Hboth : r ∈ (kept ++ rest)%list).
    { rewrite Hperm. apply list_elem_of_filter. split; [|exact Hdb].
      apply where_clause_plain_query; [exact Hplain|]. by exists text. }
    by rewrite Hrest, app_nil_r in Hboth.
  - intros text. apply contains_lowered_ascii.
Qed.

Lemma plain_query_is_substring_search_witness :
  exists kept : list fct_message,
    get_messages one_letter "A" = Ok (omap to_message_row kept)
    /\ kept ⊆+ fct_messages one_letter
    /\ Forall (fun r => exists text, message_text r = Some text
                                     /\ contains_lowered (lc_lower one_letter) text "A")
         kept
    /\ ((length kept < 50)%nat ->
        forall r text, r ∈ fct_messages one_letter -> message_text r = Some text ->
                       contains_lowered (lc_lower one_letter) text "A" -> r ∈ kept)
    /\ forall text : string,
         forallb is_ascii (list_ascii_of_string text) = true ->
         forallb is_ascii (list_ascii_of_string "A") = true ->
         contains_lowered (lc_lower one_letter) text "A" <-> contains_ci text "A".
Proof.
  apply (plain_query_is_substring_search one_letter "A"); reflexivity.
Defined.

Lemma get_messages_case_insensitive_witness :
  get_messages about_covid "COVID" = get_messages about_covid "covid".
Proof.
  apply (get_messages_case_insensitive about_covid "COVID" "covid"). reflexivity.
Defined.

(** *** The empty query *)

Lemma where_clause_empty_query (lc : character -> character) (r : fct_message) :
  where_clause lc (like_parameter "") r
  = Ok (match message_text r with Some _ => true | None => false end).
Proof.
  destruct (message_text r) as [text|] eqn:Htext.
  - destruct (where_clause_total lc "" r) as [[|] Hkeep]; [exact Hkeep|].
    assert (Hyes : where_clause lc (like_parameter "") r = Ok true); [|congruence].
    apply where_clause_plain_query; [reflexivity|].
    exists text. split; [exact Htext|].
    exists (lowered lc (list_ascii_of_string text)), []. simpl. by rewrite app_nil_r.
  - unfold where_clause. by rewrite Htext.
Qed.

Lemma filter_empty_query (lc : character -> character) (table : list fct_message) :
  filter (fun r => where_clause lc (like_parameter "") r = Ok true) table
  = filter (fun r => is_Some (message_text r)) table.
Proof.
  induction table as [|r table IH]; [reflexivity|].
  rewrite !filter_cons, IH, where_clause_empty_query.
  destruct (message_text r) as [text|].
  - by rewrite !decide_True by eauto.
  - rewrite !decide_False; [reflexivity | by intros [? ?] | discriminate].
Qed.

(** X6.  The empty query matches every message that has a text: the search
    returns [min 50 n] rows when [n] messages have one. *)
Theorem empty_query_returns_every_text (db : Session)
    (Hserves : execute_fault db = None) :
  exists rows,
    get_messages db "" = Ok rows
    /\ length rows
       = Nat.min 50 (length (filter (fun r => is_Some (message_text r))
                               (fct_messages db))).
Proof.
  destruct (get_messages_capped db "" Hserves) as (rows & Hget & _ & Hlen).
  exists rows. split; [exact Hget|].
  by rewrite filter_empty_query in Hlen.
Qed.

Lemma empty_query_returns_every_text_witness :
  exists rows,
    get_messages about_covid "" = Ok rows
    /\ length rows
       = Nat.min 50 (length (filter (fun r => is_Some (message_text r))
                               (fct_messages about_covid))).
Proof. apply (empty_query_returns_every_text about_covid). reflexivity. Defined.

(** *** Pages *)

Lemma search_messages_page (db : Session) (q : string) (limit offset : Z)
    (rows : list message_row) :
  get_messages db q = Ok rows ->
  0 <= offset ->
  search_messages q limit offset db
  = Return (SearchBody true (Z.of_nat (length rows))
              (take (Z.to_nat (effective_limit limit)) (drop (Z.to_nat offset) rows))
              q).
Proof.
  intros Hget Hoffset. unfold search_messages. rewrite Hget.
  pose proof (effective_limit_bounds limit).
  rewrite slice_from_the_start by lia. do 3 f_equal. lia.
Qed.

(** X7.  With a non-negative offset, a page and the page that starts where it
    ends make up the page of both limits together: pages neither overlap
    nor leave a gap, and both carry the same [count]. *)
Theorem consecutive_pages_tile (db : Session) (q : string) (limit limit' offset : Z)
    (rows : list message_row)
    (Hrows : get_messages db q = Ok rows) (Hoffset : 0 <= offset) :
  exists page page',
    search_messages q limit offset db = Return page
    /\ search_messages q limit' (offset + effective_limit limit) db = Return page'
    /\ count page = count page'
    /\ (results page ++ results page')%list
       = take (Z.to_nat (effective_limit limit + effective_limit limit'))
           (drop (Z.to_nat offset) rows).
Proof.
  pose proof (effective_limit_bounds limit).
  pose proof (effective_limit_bounds limit').
  do 2 eexists. split; [by apply search_messages_page|].
  split; [apply search_messages_page; [exact Hrows | lia]|].
  split; [reflexivity|]. simpl.
  replace (Z.to_nat (offset + effective_limit limit))
    with (Z.to_nat offset + Z.to_nat (effective_limit limit))%nat by lia.
  rewrite <- drop_drop, take_take_drop. f_equal. lia.
Qed.

Lemma consecutive_pages_tile_witness :
  exists page page',
    search_messages "covid" 20 10 about_covid = Return page
    /\ search_messages "covid" 30 (10 + effective_limit 20) about_covid = Return page'
    /\ count page = count page'
    /\ (results page ++ results page')%list
       = take (Z.to_nat (effective_limit 20 + effective_limit 30))
           (drop (Z.to_nat 10)
              (omap to_message_row
                 (LIMIT 50 (sort_by (fun a b => desc_le (media_date a) (media_date b))
                              (fct_messages about_covid))))).
Proof.
  apply (consecutive_pages_tile about_covid "covid" 20 30 10).
  - vm_compute. reflexivity.
  - lia.
Defined.

(** X8.  A page that starts at offset 50 or beyond is empty, whatever the table
    holds, while [count] is still the number of rows found. *)
Theorem pages_end_at_50 (db : Session) (q : string) (limit offset : Z)
    (Hserves : execute_fault db = None) (Hbeyond : 50 <= offset) :
  exists rows,
    get_messages db q = Ok rows
    /\ search_messages q limit offset db
       = Return (SearchBody true (Z.of_nat (length rows)) [] q).
Proof.
  destruct (get_messages_capped db q Hserves) as (rows & Hget & _ & Hlen).
  exists rows. split; [exact Hget|].
  rewrite (search_messages_page db q limit offset rows Hget) by lia.
  rewrite (drop_ge rows) by lia. by rewrite take_nil.
Qed.

Lemma pages_end_at_50_witness :
  exists rows,
    get_messages about_covid "covid" = Ok rows
    /\ search_messages "covid" 100 50 about_covid
       = Return (SearchBody true (Z.of_nat (length rows)) [] "covid").
Proof. apply (pages_end_at_50 about_covid "covid" 100 50); [reflexivity | lia]. Defined.

(** *** When the database fails *)



End SearchFacts.

(** ** More on the pipeline *)

Module RunFacts.
Import Py Pipeline PipelineScenarios PipelineFacts.

Lemma success_status (w : surroundings) : success w !! "status" = Some "success".
Proof. unfold success. by rewrite lookup_insert_eq. Qed.

(** X10.  How an op can end.  It returns the success payload only when
    it started its child and the child exited with code 0 (the enrich op
    alone returns something else, the skip payload, and only when its
    script is found missing).  It raises what looking for its script
    raised, a [PermissionError] or another [OSError];
    [FileNotFoundError] naming its path when the script is found missing;
    what the lookup of its resource raised, a [KeyError] or a [TypeError],
    when the script is there but the environment of the child cannot be
    built; what [subprocess.run] itself raised; or an [Exception] whose
    message ends with the stderr of a child that exited with a non-zero
    code.  It waits for ever only on a child it started and that never
    exits.  With the resources of the repository's job, an op whose script
    is in place always raises [TypeError]. *)
Theorem op_outcomes (s : stage) (context : resources) (w : surroundings)
    (previous_result : gmap string string) :
  match op_of s context w previous_result with
  | Returned p =>
      (starts_child s context w /\ p = success w
       /\ exists err seconds, child w = Exits 0 err seconds)
      \/ (exists_ w = Returned false /\ s = enrich
          /\ p = {[ "status" := "skipped"; "reason" := "YOLO script not found";
                    "timestamp" := utcnow w ]})
  | Raised e =>
      (exists_ w = Raised e
       /\ (exn_class e = "PermissionError" \/ exn_class e = "OSError"))
      \/ (exists_ w = Returned false /\ s <> enrich
          /\ exn_class e = "FileNotFoundError"
          /\ exists prefix, exn_msg e = prefix ++ path w)
      \/ (exists_ w = Returned true
          /\ child_env (resource_of s context) (vars_of s) = Raise e
          /\ (exn_class e = "KeyError" \/ exn_class e = "TypeError"))
      \/ (starts_child s context w
          /\ exists c msg, child w = Fails c msg
                           /\ e = Exn (run_error_class c) msg [])
      \/ (starts_child s context w /\ exn_class e = "Exception"
          /\ exists rc err seconds prefix,
               child w = Exits rc err seconds /\ rc <> 0
               /\ exn_msg e = prefix ++ err)
  | Blocked => starts_child s context w /\ child w = Hangs
  end
  /\ forall getenv, context = telegram_job_resources getenv ->
       exists_ w = Returned true ->
       exists class,
         op_of s context w previous_result
         = Raised (Exn "TypeError" ("'" ++ class ++ "' object is not subscriptable") [])
         /\ class = (if decide (s = scrape) then "TelegramResource"
                     else "PostgresResource").
Proof.
  split; [|intros getenv -> Hpath; by apply op_of_on_job_resources].
  unfold starts_child.
  destruct s; cbn [resource_of vars_of]; open_op.
  all: look_for_script w c0 msg0;
    [ left; split; [done | destruct c0; by eauto]
    | | first [ by right | right; left; repeat split; [done | by eexists] ] ].
  all: match goal with
       | |- context [child_env ?d ?vars] =>
           destruct (child_env d vars) as [env|e'] eqn:Henv
       end; unfold lift; cbv beta iota;
    [| right; right; left; split; [done | split; [done | by eapply child_env_raises]] ].
  all: destruct (child w) as [rc err secs| |c msg]; unfold subprocess_run;
    cbv beta iota;
    [| by eauto | right; right; right; left; by eauto 10 ].
  all: cbn [returncode stderr]; destruct (Z.eqb_spec rc 0) as [-> | Hrc]; cbn [negb].
  all: first [ left; repeat split; by eauto
             | right; right; right; right; repeat split; by eauto 10 ].
Qed.

(** X11.  Every run has a last execution; all executions before it returned a
    payload and carry no error; the run has failed exactly when the last one
    failed, is running exactly when the last one is, and has succeeded
    exactly when the last one is enrich and returned. *)
Theorem run_ends_at_first_failure (context : resources)
    (world : stage -> surroundings) :
  exists before last,
    executions (execute_job context world) = (before ++ [last])%list
    /\ Forall (fun ex => is_Some (output_payload ex) /\ error_message ex = None
                         /\ stage_status ex <> failed /\ stage_status ex <> running)
         before
    /\ (run_status (execute_job context world) = failed
        <-> stage_status last = failed /\ is_Some (error_message last))
    /\ (run_status (execute_job context world) = running
        <-> stage_status last = running)
    /\ (run_status (execute_job context world) = succeeded
        <-> executed last = enrich /\ is_Some (output_payload last)).
Proof.
  run_graph.
  destruct (scrape_telegram_data context (world scrape)) as [p1|e1|];
    cbv beta iota zeta;
    [destruct (load_raw_to_postgres context (world load) p1) as [p2|e2|];
     cbv beta iota zeta;
     [destruct (run_dbt_transformations context (world transform) p2) as [p3|e3|];
      cbv beta iota zeta;
      [destruct (run_yolo_enrichment context (world enrich) p3) as [p4|e4|];
       cbv beta iota zeta | |] | |] | |].
  all: match goal with
       | |- context [executions {| run_status := _; executions := ?l |}] =>
           exists (removelast l), (List.last l (record_of scrape None Blocked))
       end.
  all: cbn [removelast List.last app run_status executions].
  all: split; [reflexivity|].
  all: split; [repeat constructor; cbn [record_of output_payload error_message stage_status];
               first [ by eexists | done | by case_decide ] |].
  all: cbn [record_of output_payload error_message stage_status executed].
  all: repeat split; try done; try (by intros [? ?]); try (by intros [? [? ?]]);
    try (by case_decide); try (by eexists); try (intros; by case_decide).
Qed.

End RunFacts.


(** ** More on the Telegram session *)

Module TelegramSessionFacts.
Import Py TelegramService TelegramSession TelegramScenarios.

Lemma try_block_client (w : attempt_world) (s : service) :
  (client s = true -> client (try_block w s).1 = true)
  /\ (forall r, (try_block w s).2 = Ok r -> client (try_block w s).1 = true)
  /\ _is_connected (try_block w s).1 = _is_connected s.
Proof.
  unfold try_block. destruct (client s) eqn:Hclient; simpl.
  - repeat split; auto.
  - destruct (TelegramClient w); simpl; repeat split; auto; discriminate.
Qed.

Ltac next_attempt n s1 r1 H :=
  match goal with
  | |- context [try_block (?world n) ?s'] =>
      pose proof (try_block_client (world n) s') as H;
      destruct (try_block (world n) s') as [s1 r1]; cbn [fst snd] in H
  end.

(** X12.  [connect] never drops the client, and keeps the flag consistent with
    it: on a service it leaves, [_is_connected] is set only if there is a
    client. *)
Theorem connect_keeps_the_session_consistent (connected_on_entry : bool)
    (world : Z -> attempt_world) (s : service) :
  (client s = true ->
   client (service_after (connect connected_on_entry world s)) = true)
  /\ (consistent s ->
      consistent (service_after (connect connected_on_entry world s))).
Proof.
  unfold connect, consistent.
  destruct (_is_connected s && client s && connected_on_entry); [by auto|].
  unfold max_retries, retry_delay. simpl.
  change (0 + 1 + 1) with 2. change (0 + 1) with 1.
  next_attempt 0 s1 r1 H1. destruct H1 as (Hc1 & Hr1 & Hf1).
  destruct r1 as [[|]|e1]; cbv beta iota zeta;
    cbn [service_after client _is_connected];
    [split; eauto | split; [eauto | rewrite Hf1; eauto] |].
  destruct (is_Exception e1); cbv beta iota zeta;
    cbn [service_after client _is_connected];
    [| split; [eauto | rewrite Hf1; eauto] ].
  destruct (asyncio_sleep (world 0)); cbn [service_after client _is_connected];
    [split; [eauto | discriminate] |].
  next_attempt 1 s2 r2 H2. destruct H2 as (Hc2 & Hr2 & Hf2).
  cbn [client _is_connected] in *.
  destruct r2 as [[|]|e2]; cbv beta iota zeta;
    cbn [service_after client _is_connected];
    [split; eauto | split; [eauto | rewrite Hf2; discriminate] |].
  destruct (is_Exception e2); cbv beta iota zeta;
    cbn [service_after client _is_connected];
    [| split; [eauto | rewrite Hf2; discriminate] ].
  destruct (asyncio_sleep (world 1)); cbn [service_after client _is_connected];
    [split; [eauto | discriminate] |].
  next_attempt 2 s3 r3 H3. destruct H3 as (Hc3 & Hr3 & Hf3).
  cbn [client _is_connected] in *.
  destruct r3 as [[|]|e3]; cbv beta iota zeta;
    cbn [service_after client _is_connected];
    [split; eauto | split; [eauto | rewrite Hf3; discriminate] |].
  destruct (is_Exception e3); cbv beta iota zeta;
    cbn [service_after client _is_connected];
    [split; [eauto | discriminate] | split; [eauto | rewrite Hf3; discriminate] ].
Qed.

Ltac attempt_cases n s1 r1 H Hc :=
  match goal with
  | |- context [try_block (?world n) ?s'] =>
      pose proof (try_block_client (world n) s') as Hc;
      destruct (try_block (world n) s') as [s1 r1] eqn:H; cbn [fst snd] in Hc
  end.

(** X13.  How [connect] ends.  It raises in three ways.  When the third
    attempt has failed with an exception that [except Exception] catches,
    three attempts were made and the flag is cleared.  When an attempt
    raises an exception that is not caught (a cancelled task, an
    interrupt), that attempt was the last, and the flag is what it was
    before that attempt: cleared after a failed attempt, but still the
    caller's own value when it was the first.  When [asyncio.sleep] raises
    after one of the first two attempts, the flag is cleared.  When
    [connect] returns, either it found the service connected and did
    nothing, or its last attempt went through and the flag is set, or its
    last attempt took the authorisation branch (a code was requested) and
    the flag is, again, what it was before that attempt. *)
Theorem connect_outcome (connected_on_entry : bool) (world : Z -> attempt_world)
    (s : service) :
  match raised (connect connected_on_entry world s) with
  | Some e =>
      (is_Exception e = true
       /\ attempts (connect connected_on_entry world s) = [0; 1; 2]
       /\ (exists s', (try_block (world 2) s').2 = Raise e)
       /\ _is_connected (service_after (connect connected_on_entry world s)) = false)
      \/ (is_Exception e = false
          /\ exists k s',
               last (attempts (connect connected_on_entry world s)) = Some k
               /\ (try_block (world k) s').2 = Raise e
               /\ _is_connected (service_after (connect connected_on_entry world s))
                  = if k =? 0 then _is_connected s else false)
      \/ (exists k,
            last (attempts (connect connected_on_entry world s)) = Some k
            /\ k < 2
            /\ asyncio_sleep (world k) = Some e
            /\ last (events (connect connected_on_entry world s))
               = Some (Sleep (retry_delay * 2 ^ k))
            /\ _is_connected (service_after (connect connected_on_entry world s))
               = false)
  | None =>
      (events (connect connected_on_entry world s) = []
       /\ service_after (connect connected_on_entry world s) = s
       /\ _is_connected s = true)
      \/ (exists k s',
            last (attempts (connect connected_on_entry world s)) = Some k
            /\ (try_block (world k) s').2 = Ok true
            /\ _is_connected (service_after (connect connected_on_entry world s)) = true
            /\ client (service_after (connect connected_on_entry world s)) = true)
      \/ (exists k s',
            last (attempts (connect connected_on_entry world s)) = Some k
            /\ (try_block (world k) s').2 = Ok false
            /\ _is_connected (service_after (connect connected_on_entry world s))
               = if k =? 0 then _is_connected s else false)
  end.
Proof.
  unfold connect.
  destruct (_is_connected s && client s && connected_on_entry) eqn:Hguard.
  { left. repeat split. by repeat (apply andb_true_iff in Hguard as [Hguard _]). }
  unfold max_retries, retry_delay. simpl.
  change (0 + 1 + 1) with 2. change (0 + 1) with 1.
  attempt_cases 0 s1 r1 H1 Hc1. destruct Hc1 as (_ & Hr1 & Hf1).
  destruct r1 as [[|]|e1]; cbv beta iota zeta;
    cbn [raised service_after client _is_connected].
  { right; left. exists 0, s. rewrite H1. repeat split; eauto. }
  { right; right. exists 0, s. rewrite H1. repeat split; eauto. }
  destruct (is_Exception e1) eqn:He1; cbv beta iota zeta;
    cbn [raised service_after client _is_connected].
  2: { right; left. split; [exact He1|]. exists 0, s. rewrite H1. by repeat split. }
  destruct (asyncio_sleep (world 0)) as [e1'|] eqn:Hs1;
    cbn [raised service_after client _is_connected].
  { right; right. exists 0. repeat split; first [lia | assumption | reflexivity]. }
  attempt_cases 1 s2 r2 H2 Hc2. destruct Hc2 as (_ & Hr2 & Hf2).
  cbn [client _is_connected] in *.
  destruct r2 as [[|]|e2]; cbv beta iota zeta;
    cbn [raised service_after client _is_connected].
  { right; left. eexists 1, _. rewrite H2. repeat split; eauto. }
  { right; right. eexists 1, _. rewrite H2. repeat split; eauto. }
  destruct (is_Exception e2) eqn:He2; cbv beta iota zeta;
    cbn [raised service_after client _is_connected].
  2: { right; left. split; [exact He2|]. eexists 1, _. rewrite H2. by repeat split. }
  destruct (asyncio_sleep (world 1)) as [e2'|] eqn:Hs2;
    cbn [raised service_after client _is_connected].
  { right; right. exists 1. repeat split; first [lia | assumption | reflexivity]. }
  attempt_cases 2 s3 r3 H3 Hc3. destruct Hc3 as (_ & Hr3 & Hf3).
  cbn [client _is_connected] in *.
  destruct r3 as [[|]|e3]; cbv beta iota zeta;
    cbn [raised service_after client _is_connected].
  { right; left. eexists 2, _. rewrite H3. repeat split; eauto. }
  { right; right. eexists 2, _. rewrite H3. repeat split; eauto. }
  destruct (is_Exception e3) eqn:He3; cbv beta iota zeta;
    cbn [raised service_after client _is_connected].
  - left. split; [exact He3|]. split; [reflexivity|]. split; [|reflexivity].
    eexists. by rewrite H3.
  - right; left. split; [exact He3|]. eexists 2, _. rewrite H3. by repeat split.
Qed.

(** X14.  [disconnect] on a consistent service: when it returns, the flag is
    cleared and the client kept; it raises only what the client's
    [disconnect] raised, and then leaves the service as it was, flag set. *)
Theorem disconnect_clears_the_flag (client_disconnect : option exn) (s : service)
    (Hconsistent : consistent s) :
  match disconnect client_disconnect s with
  | (s', Ok _) => _is_connected s' = false /\ client s' = client s
  | (s', Raise e) =>
      client_disconnect = Some e /\ s' = s /\ _is_connected s = true
  end.
Proof.
  unfold disconnect, consistent in *.
  destruct (_is_connected s) eqn:Hflag; simpl.
  - rewrite (Hconsistent eq_refl). destruct client_disconnect; simpl; auto.
  - auto.
Qed.

Lemma disconnect_clears_the_flag_witness :
  match disconnect None {| client := true; _is_connected := true |} with
  | (s', Ok _) => _is_connected s' = false /\ client s' = true
  | (s', Raise e) =>
      None = Some e /\ s' = {| client := true; _is_connected := true |}
      /\ true = true
  end.
Proof.
  apply (disconnect_clears_the_flag None {| client := true; _is_connected := true |}).
  intros _. reflexivity.
Defined.

End TelegramSessionFacts.


(** ** The loader *)

Module LoaderFacts.
Import Py Json Posix Loader Aux LoaderScenarios.

Lemma split_not_nil (sep : ascii) (s : string) : split sep s <> [].
Proof.
  destruct s as [|c s]; simpl; [discriminate|].
  destruct (Ascii.eqb c sep); [discriminate|].
  destruct (split sep s); discriminate.
Qed.

Lemma split_append (sep : ascii) (a b : string) :
  split sep (a ++ String sep b) = (split sep a ++ split sep b)%list.
Proof.
  induction a as [|c a IH]; simpl.
  - by rewrite Ascii.eqb_refl.
  - destruct (Ascii.eqb c sep); [by rewrite IH|].
    rewrite IH. pose proof (split_not_nil sep a).
    destruct (split sep a); [done | reflexivity].
Qed.

Lemma split_no_slash (s : string) : no_slash s = true -> split "/" s = [s].
Proof.
  unfold no_slash. induction s as [|c s IH]; simpl; [reflexivity|].
  intros [Hc Hs]%andb_true_iff.
  destruct (Ascii.eqb c "/"); [discriminate|]. by rewrite IH.
Qed.

Lemma index_app_first (x : string) (l r : list string) :
  index x l = None -> index x (l ++ x :: r) = Some (length l).
Proof.
  induction l as [|y l IH]; simpl.
  - by rewrite String.eqb_refl.
  - destruct (String.eqb y x); [discriminate|].
    destruct (index x l); [discriminate|]. intros _. by rewrite IH.
Qed.

Lemma split_layout (base date channel file : string) :
  no_slash date = true -> no_slash channel = true -> no_slash file = true ->
  split "/" (base ++ "/telegram_messages/" ++ date ++ "/" ++ channel ++ "/" ++ file)
  = (split "/" base ++ ["telegram_messages"; date; channel; file])%list.
Proof.
  intros Hdate Hchannel Hfile.
  change ("/telegram_messages/" ++ date ++ "/" ++ channel ++ "/" ++ file)
    with (String "/" ("telegram_messages"
                      ++ String "/" (date ++ String "/" (channel ++ String "/" file)))).
  rewrite !split_append.
  by rewrite (split_no_slash date), (split_no_slash channel), (split_no_slash file).
Qed.

(** X15.  In the layout the scraper writes,
    [<base>/telegram_messages/<date>/<channel>/<file>],
    [get_channel_name_from_path], used for the media files, finds the
    channel; the expression used for the message files,
    [file_path.split('/')[-3]], finds the date directory instead. *)
Theorem channel_of_a_scraped_file (base date channel file : string)
    (Hdate : no_slash date = true) (Hchannel : no_slash channel = true)
    (Hfile : no_slash file = true)
    (Hbase : index "telegram_messages" (split "/" base) = None) :
  get_channel_name_from_path
    (base ++ "/telegram_messages/" ++ date ++ "/" ++ channel ++ "/" ++ file)
  = Ok channel
  /\ third_from_last
       (base ++ "/telegram_messages/" ++ date ++ "/" ++ channel ++ "/" ++ file)
     = Ok date.
Proof.
  unfold get_channel_name_from_path, third_from_last.
  rewrite (split_layout base date channel file Hdate Hchannel Hfile).
  rewrite (index_app_first _ _ _ Hbase), length_app. simpl length. split.
  - destruct (Nat.ltb_spec (length (split "/" base) + 2)
                (length (split "/" base) + 4)) as [_ | ?]; [|lia].
    f_equal. rewrite app_nth2 by lia.
    by replace (length (split "/" base) + 2 - length (split "/" base))%nat
      with 2%nat by lia.
  - destruct (Nat.leb_spec 3 (length (split "/" base) + 4)) as [_ | ?]; [|lia].
    f_equal. rewrite app_nth2 by lia.
    by replace (length (split "/" base) + 4 - 3 - length (split "/" base))%nat
      with 1%nat by lia.
Qed.

Lemma channel_of_a_scraped_file_witness :
  get_channel_name_from_path
    ("data/raw" ++ "/telegram_messages/" ++ "2025-07-14" ++ "/" ++ "CheMed123"
     ++ "/" ++ "media_info_20250714_000000.json")
  = Ok "CheMed123"
  /\ third_from_last
       ("data/raw" ++ "/telegram_messages/" ++ "2025-07-14" ++ "/" ++ "CheMed123"
        ++ "/" ++ "media_info_20250714_000000.json")
     = Ok "2025-07-14".
Proof.
  apply (channel_of_a_scraped_file "data/raw" "2025-07-14" "CheMed123"
           "media_info_20250714_000000.json"); reflexivity.
Defined.

(** X16.  On a path without a [telegram_messages] component the function does
    not return ['unknown']: it raises [NameError]. *)
Theorem channel_name_fallback_raises (file_path : string)
    (Hmissing : index "telegram_messages" (split "/" file_path) = None) :
  exists e, get_channel_name_from_path file_path = Raise e
            /\ exn_class e = "NameError".
Proof.
  unfold get_channel_name_from_path. rewrite Hmissing. by eexists.
Qed.

Lemma channel_name_fallback_raises_witness :
  exists e, get_channel_name_from_path "backup/2025-07-14/CheMed123/media_info_1.json"
            = Raise e
            /\ exn_class e = "NameError".
Proof.
  apply (channel_name_fallback_raises "backup/2025-07-14/CheMed123/media_info_1.json").
  reflexivity.
Defined.

(** *** Loading *)

Lemma mapM_result_cons {A B} (f : A -> result B) (x : A) (l : list A) :
  mapM f (x :: l) = bind (f x) (fun y => bind (mapM f l) (fun k => Ok (y :: k))).
Proof. reflexivity. Qed.

Lemma mapM_result_raises {A B} (f : A -> result B) (l : list A) (x : A) :
  x ∈ l -> (exists e, f x = Raise e) -> exists e, mapM f l = Raise e.
Proof.
  intros Hx [e He]. induction l as [|y l IH]; [by inv Hx|].
  rewrite mapM_result_cons. apply elem_of_cons in Hx as [<- | Hx].
  - rewrite He. by eexists.
  - destruct (f y) as [b|e']; simpl; [|by eexists].
    destruct (IH Hx) as [e'' ->]. by eexists.
Qed.

Lemma mapM_result_Forall2 {A B} (f : A -> result B) (l : list A) (k : list B) :
  mapM f l = Ok k -> Forall2 (fun x y => f x = Ok y) l k.
Proof.
  revert k. induction l as [|x l IH]; intros k.
  - intros [= <-]. constructor.
  - rewrite mapM_result_cons. destruct (f x) as [y|] eqn:Hx; simpl; [|discriminate].
    destruct (mapM f l) as [k'|]; simpl; [|discriminate].
    intros [= <-]. constructor; auto.
Qed.

Lemma insert_channel (w : loader_world) (channel : string) (item : json)
    (row : raw_row) :
  insert w channel item = Ok row ->
  channel_username row = channel /\ row_data row = item.
Proof.
  unfold insert. destruct (get item "date") as [date|]; simpl; [|discriminate].
  destruct date; try (destruct (is_timestamp w _); [|discriminate]);
    by intros [= <-].
Qed.

Lemma load_file_rows (w : loader_world) (channel_of : string -> result string)
    (file_path : string) (rows : list raw_row) :
  load_file w channel_of file_path = Ok rows ->
  exists channel items,
    channel_of file_path = Ok channel
    /\ (content ← load w file_path; iterate content) = Ok items
    /\ map row_data rows = items
    /\ Forall (fun row => channel_username row = channel) rows.
Proof.
  unfold load_file.
  destruct (channel_of file_path) as [channel|]; simpl; [|discriminate].
  destruct (load w file_path) as [content|]; simpl; [|discriminate].
  destruct (iterate content) as [items|]; simpl; [|discriminate].
  intros Hrows%mapM_result_Forall2. exists channel, items.
  split; [reflexivity|]. split; [reflexivity|].
  induction Hrows as [|item row items rows Hrow _ [IH1 IH2]]; [by split|].
  apply insert_channel in Hrow as [Hc Hd]. split.
  - simpl. by rewrite Hd, IH1.
  - by constructor.
Qed.

Lemma loaded_rows_carry_the_date (w : loader_world) (files : list string)
    (loaded : list (list raw_row)) :
  Forall2 (fun path rows => load_file w third_from_last path = Ok rows) files loaded ->
  Forall (fun path => exists base date channel file,
            path = base ++ "/telegram_messages/" ++ date ++ "/" ++ channel ++ "/" ++ file
            /\ no_slash date = true /\ no_slash channel = true
            /\ no_slash file = true) files ->
  Forall (fun row => exists base date channel file,
            (base ++ "/telegram_messages/" ++ date ++ "/" ++ channel ++ "/" ++ file)
              ∈ files
            /\ channel_username row = date)
    (concat loaded).
Proof.
  induction 1 as [|path rs files loaded Hpath _ IH]; intros Hlayout; [constructor|].
  inversion Hlayout as [|? ? (base & date & channel & file & -> & Hd & Hc & Hf) Hrest];
    subst.
  simpl. apply Forall_app. split.
  - apply load_file_rows in Hpath as (c & items & Hc' & _ & _ & Hrows).
    eapply Forall_impl; [exact Hrows|]. intros row Hrow.
    exists base, date, channel, file. split; [by left|].
    assert (Hthird := split_layout base date channel file Hd Hc Hf).
    unfold third_from_last in Hc'. rewrite Hthird, length_app in Hc'.
    simpl length in Hc'.
    destruct (Nat.leb_spec 3 (length (split "/" base) + 4)) as [_ | ?]; [|lia].
    injection Hc' as Hc'. rewrite Hrow, <- Hc'. rewrite app_nth2 by lia.
    by replace (length (split "/" base) + 4 - 3 - length (split "/" base))%nat
      with 1%nat by lia.
  - eapply Forall_impl; [exact (IH Hrest)|].
    intros row (b & d & c & f & Hin & Hrow). exists b, d, c, f. split; [by right | done].
Qed.

(** X17.  When the message files are laid out as the scraper writes them, every
    row the loader puts into [raw.telegram_messages] has the name of a date
    directory in its [channel_username] column. *)
Theorem message_rows_carry_the_date (w : loader_world) (rows : raw_schema)
    (Hlayout : Forall (fun path => exists base date channel file,
                         path = base ++ "/telegram_messages/" ++ date ++ "/"
                                ++ channel ++ "/" ++ file
                         /\ no_slash date = true /\ no_slash channel = true
                         /\ no_slash file = true)
                 (message_files w))
    (Hloaded : load_json_files w = Ok rows) :
  Forall (fun row => exists base date channel file,
            (base ++ "/telegram_messages/" ++ date ++ "/" ++ channel ++ "/" ++ file)
              ∈ message_files w
            /\ channel_username row = date)
    (telegram_messages rows).
Proof.
  unfold load_json_files in Hloaded.
  destruct (mapM (load_file w third_from_last) (message_files w)) as [loaded|] eqn:Hm;
    simpl in Hloaded; [|discriminate].
  destruct (mapM (load_file w get_channel_name_from_path) (media_files w));
    simpl in Hloaded; [|discriminate].
  injection Hloaded as <-. simpl.
  apply mapM_result_Forall2 in Hm. by eapply loaded_rows_carry_the_date.
Qed.

Lemma message_rows_carry_the_date_witness :
  Forall (fun row => exists base date channel file,
            (base ++ "/telegram_messages/" ++ date ++ "/" ++ channel ++ "/" ++ file)
              ∈ message_files one_day_of_files
            /\ channel_username row = date)
    [RawRow "2025-07-14" None (JDict []); RawRow "2025-07-14" None (JDict [])].
Proof.
  apply (message_rows_carry_the_date one_day_of_files
           {| telegram_messages :=
                [RawRow "2025-07-14" None (JDict []); RawRow "2025-07-14" None (JDict [])];
              telegram_media := [] |}).
  - repeat constructor.
    exists "data/raw", "2025-07-14", "CheMed123", "messages_20250714_000000.json".
    repeat split; reflexivity.
  - reflexivity.
Defined.

(** X18.  When one file cannot be opened or parsed, nothing is stored, whatever
    the other files hold: the commit comes after the last file. *)
Theorem a_bad_file_loads_nothing (w : loader_world) (db : raw_schema)
    (file_path : string) (e : exn)
    (Hfile : file_path ∈ (message_files w ++ media_files w)%list)
    (Hbad : load w file_path = Raise e) :
  main w db = db.
Proof.
  unfold main, load_json_files.
  assert (Hraises : forall channel_of,
             exists e', load_file w channel_of file_path = Raise e').
  { intros channel_of. unfold load_file.
    destruct (channel_of file_path); simpl; [|by eexists].
    rewrite Hbad. by eexists. }
  apply elem_of_app in Hfile as [Hfile | Hfile].
  - destruct (mapM_result_raises (load_file w third_from_last) _ _ Hfile
                (Hraises _)) as [e' ->]. reflexivity.
  - destruct (mapM (load_file w third_from_last) (message_files w)); [|reflexivity].
    simpl.
    destruct (mapM_result_raises (load_file w get_channel_name_from_path) _ _ Hfile
                (Hraises _)) as [e' ->]. reflexivity.
Qed.

(** X19.  A file that holds [n] empty objects, as the message files of the
    scraper do, gives [n] rows without a date and without content. *)
Theorem empty_objects_load_as_empty_rows (w : loader_world)
    (channel_of : string -> result string) (file_path channel : string) (n : nat)
    (Hchannel : channel_of file_path = Ok channel)
    (Hcontent : load w file_path = Ok (JList (replicate n (JDict [])))) :
  load_file w channel_of file_path
  = Ok (replicate n (RawRow channel None (JDict []))).
Proof.
  unfold load_file. rewrite Hchannel, Hcontent. simpl. clear Hcontent.
  induction n as [|n IH]; [reflexivity|].
  cbn [replicate]. rewrite mapM_result_cons, IH. reflexivity.
Qed.

Lemma empty_objects_load_as_empty_rows_witness :
  load_file one_day_of_files third_from_last
    "data/raw/telegram_messages/2025-07-14/CheMed123/messages_20250714_000000.json"
  = Ok (replicate 2 (RawRow "2025-07-14" None (JDict []))).
Proof.
  apply (empty_objects_load_as_empty_rows one_day_of_files third_from_last
           "data/raw/telegram_messages/2025-07-14/CheMed123/messages_20250714_000000.json"
           "2025-07-14" 2); reflexivity.
Defined.

Lemma a_bad_file_loads_nothing_witness :
  main one_broken_file empty_schema = empty_schema.
Proof.
  apply (a_bad_file_loads_nothing one_broken_file empty_schema
           "data/raw/telegram_messages/2025-07-14/CheMed123/media_info_20250714_000000.json"
           (Exn "JSONDecodeError" "Expecting value: line 1 column 1 (char 0)" [])).
  - simpl. apply elem_of_cons. right. apply elem_of_cons. by left.
  - reflexivity.
Defined.

End LoaderFacts.

(** ** The scraper *)

Module ScrapingFacts.
Import Py Json Posix TelegramService Scraping ScrapingScenarios.

Lemma get_messages_yields_dicts (w : messages_world) (s : service) :
  Forall (fun i => exists d, i = Dict d) (yielded (get_messages w s)).
Proof.
  unfold get_messages.
  destruct (raised _); [constructor|].
  destruct (get_entity w); [constructor|]. simpl.
  apply Forall_fmap, Forall_forall. intros m _. by eexists.
Qed.

Lemma collect_dicts (w : scrape_world) (dir : string) (items : list item)
    (messages : list json) (written : files) :
  Forall (fun i => exists d, i = Dict d) items ->
  (collect w dir items messages written).1
  = (messages ++ replicate (length items) (JDict []))%list.
Proof.
  intros Hitems. revert messages written.
  induction Hitems as [|i items [d ->] _ IH]; intros messages written; simpl.
  - by rewrite app_nil_r.
  - rewrite IH. by rewrite <- app_assoc.
Qed.

(** X20.  The messages [scrape_channel] saves, when it is given what
    [TelegramService.get_messages] yields: the generator yields
    dictionaries, which have no [to_dict], so each message becomes the empty
    object.  The file named in the result holds one [{}] per message
    yielded, and [message_count] is their number. *)
Theorem scraped_messages_are_empty_objects (mw : messages_world) (s : service)
    (w : scrape_world) (channel_username file : string)
    (Hstream : stream w = yielded (get_messages mw s))
    (Hsaved : messages_file (scrape_channel w channel_username).1 = Some file) :
  (file, Some (JList (replicate (length (yielded (get_messages mw s))) (JDict []))))
    ∈ (scrape_channel w channel_username).2
  /\ message_count (scrape_channel w channel_username).1
     = Z.of_nat (length (yielded (get_messages mw s))).
Proof.
  revert Hsaved. unfold scrape_channel.
  destruct (channel_info w); [discriminate|].
  destruct (makedirs w (channel_dir w channel_username)); [discriminate|].
  destruct (makedirs w (media_dir w channel_username)); [discriminate|].
  pose proof (collect_dicts w (channel_dir w channel_username) (stream w) [] []) as Hc.
  rewrite Hstream in Hc. specialize (Hc (get_messages_yields_dicts mw s)).
  rewrite <- Hstream in Hc at 1.
  destruct (collect w (channel_dir w channel_username) (stream w) [] [])
    as [messages written]. simpl in Hc. subst messages.
  destruct (stream_end w); [discriminate|].
  destruct (open_w w (join (channel_dir w channel_username) _)) eqn:Hopen;
    [discriminate|].
  destruct (filter _ (media_stream w)) as [|m ms].
  - simpl. intros [= <-]. rewrite length_replicate.
    split; [|reflexivity]. apply elem_of_app. right. by left.
  - destruct (open_w w (join (channel_dir w channel_username)
                          ["media_info_" ++ timestamp w ++ ".json"])).
    + simpl. intros [= <-]. rewrite length_replicate.
      split; [|reflexivity]. apply elem_of_app. right. by left.
    + destruct (mapM (relativize w) (m :: ms)); simpl; intros [= <-];
        rewrite length_replicate; (split; [|reflexivity]);
        apply elem_of_app; left; apply elem_of_app; right; by left.
Qed.

Lemma scraped_messages_are_empty_objects_witness :
  ("/srv/week-7/data/raw/telegram_messages/2025-07-14/CheMed123/messages_20250714_000000.json",
   Some (JList (replicate (length (yielded (get_messages reading signed_in)))
                  (JDict []))))
    ∈ (scrape_channel (quiet_channel []) "CheMed123").2
  /\ message_count (scrape_channel (quiet_channel []) "CheMed123").1
     = Z.of_nat (length (yielded (get_messages reading signed_in))).
Proof.
  apply (scraped_messages_are_empty_objects reading signed_in (quiet_channel [])
           "CheMed123"); reflexivity.
Defined.






(** *** Progress files *)

Lemma collect_progress (w : scrape_world) (dir : string)
    (Hopen : forall path, open_w w path = None) (items : list item) :
  forall (messages : list json) (written : files),
    (forall j, (1 <= j)%nat -> (1000 * j <= length messages)%nat ->
       (join dir ["messages_" ++ timestamp w ++ "_partial_" ++ str (1000 * j) ++ ".json"],
        Some (JList (take (1000 * j) messages))) ∈ written) ->
    forall j, (1 <= j)%nat ->
      (1000 * j <= length (collect w dir items messages written).1)%nat ->
      (join dir ["messages_" ++ timestamp w ++ "_partial_" ++ str (1000 * j) ++ ".json"],
       Some (JList (take (1000 * j) (collect w dir items messages written).1)))
        ∈ (collect w dir items messages written).2.
Proof.
  induction items as [|i items IH]; intros messages written Hinv; [exact Hinv|].
  cbn [collect]. destruct (to_dict_or_empty i) as [d|]; [|by apply IH].
  cbv zeta. apply IH. clear IH. intros j Hj Hlen.
  rewrite length_app in *. simpl length in *.
  destruct (Nat.le_gt_cases (1000 * j) (length messages)) as [Hold | Hnew].
  - rewrite take_app_le by lia.
    assert (Hin := Hinv j Hj Hold).
    destruct (_ =? _)%nat; [|exact Hin].
    rewrite Hopen. apply elem_of_app. by left.
  - assert (Heq : (length messages + 1 = 1000 * j)%nat) by lia.
    rewrite Heq.
    replace ((1000 * j) mod 1000)%nat with 0%nat
      by (symmetry; rewrite Nat.mul_comm; apply Nat.Div0.mod_mul).
    cbn [Nat.eqb]. rewrite Hopen. apply elem_of_app. right.
    rewrite take_ge by (rewrite length_app; simpl; lia). by left.
Qed.

(** X23.  When nothing fails, a progress file is written at every thousandth
    message: next to the final file with all [n] messages there is, for
    every [j >= 1] with [1000 j <= n], a file
    [messages_<timestamp>_partial_<1000 j>.json] holding the first [1000 j]
    of them. *)
Theorem progress_files_repeat_the_messages (w : scrape_world)
    (channel_username : string) (j : nat)
    (Hinfo : channel_info w = None)
    (Hdirs : forall path, makedirs w path = None)
    (Hopen : forall path, open_w w path = None)
    (Hend : stream_end w = None)
    (Hj : (1 <= j)%nat)
    (Hcount : Z.of_nat (1000 * j)
              <= message_count (scrape_channel w channel_username).1) :
  exists messages,
    (join (channel_dir w channel_username) ["messages_" ++ timestamp w ++ ".json"],
     Some (JList messages)) ∈ (scrape_channel w channel_username).2
    /\ (join (channel_dir w channel_username)
          ["messages_" ++ timestamp w ++ "_partial_" ++ str (1000 * j) ++ ".json"],
        Some (JList (take (1000 * j) messages)))
         ∈ (scrape_channel w channel_username).2.
Proof.
  pose proof (collect_progress w (channel_dir w channel_username) Hopen (stream w)
                [] []) as Hprogress.
  revert Hcount. unfold scrape_channel. rewrite Hinfo, !Hdirs.
  destruct (collect w (channel_dir w channel_username) (stream w) [] [])
    as [messages written].
  rewrite Hend, Hopen. cbn [fst snd] in Hprogress.
  assert (Hpartial : Z.of_nat (1000 * j) <= Z.of_nat (length messages) ->
            (join (channel_dir w channel_username)
               ["messages_" ++ timestamp w ++ "_partial_" ++ str (1000 * j) ++ ".json"],
             Some (JList (take (1000 * j) messages))) ∈ written).
  { intros Hle. apply Hprogress; [|exact Hj|lia].
    intros j' Hj' Hlen. simpl in Hlen. lia. }
  destruct (filter _ (media_stream w)) as [|m ms].
  { simpl. intros Hle. exists messages. split.
    - apply elem_of_app. right. by left.
    - apply elem_of_app. left. by apply Hpartial. }
  rewrite Hopen. destruct (mapM (relativize w) (m :: ms)); simpl; intros Hle;
    exists messages; (split; [apply elem_of_app; left; apply elem_of_app; right; by left|]);
    apply elem_of_app; left; apply elem_of_app; left; by apply Hpartial.
Qed.

Lemma progress_files_repeat_the_messages_witness :
  exists messages,
    (join (channel_dir busy_channel "CheMed123")
       ["messages_" ++ timestamp busy_channel ++ ".json"],
     Some (JList messages)) ∈ (scrape_channel busy_channel "CheMed123").2
    /\ (join (channel_dir busy_channel "CheMed123")
          ["messages_" ++ timestamp busy_channel ++ "_partial_" ++ str (1000 * 1)
           ++ ".json"],
        Some (JList (take (1000 * 1) messages)))
         ∈ (scrape_channel busy_channel "CheMed123").2.
Proof.
  apply (progress_files_repeat_the_messages busy_channel "CheMed123" 1).
  - reflexivity.
  - intros path. reflexivity.
  - intros path. reflexivity.
  - reflexivity.
  - lia.
  - apply Z.leb_le. vm_compute. reflexivity.
Defined.

(** *** The names of the files, and the pattern of the loader *)

Lemma length_append (a b : string) :
  String.length (a ++ b) = (String.length a + String.length b)%nat.
Proof.
  induction a as [|c a IH]; [reflexivity|].
  change (S (String.length (a ++ b)) = S (String.length a + String.length b)).
  by rewrite IH.
Qed.

Lemma append_assoc (a b c : string) : (a ++ b) ++ c = a ++ b ++ c.
Proof.
  induction a as [|x a IH]; [reflexivity|].
  change (String x ((a ++ b) ++ c) = String x (a ++ b ++ c)). by rewrite IH.
Qed.

Lemma substring_all (b : string) : substring 0 (String.length b) b = b.
Proof. induction b as [|c b IH]; simpl; [reflexivity | by rewrite IH]. Qed.

Lemma substring_tail (a b : string) :
  substring (String.length (a ++ b) - String.length b) (String.length b) (a ++ b) = b.
Proof.
  induction a as [|c a IH].
  - simpl. rewrite Nat.sub_diag. apply substring_all.
  - change (substring (S (String.length (a ++ b)) - String.length b)
              (String.length b) (String c (a ++ b)) = b).
    rewrite Nat.sub_succ_l by (rewrite length_append; lia).
    exact IH.
Qed.

Lemma prefix_append (p y : string) : String.prefix p (p ++ y) = true.
Proof.
  induction p as [|a p IH]; [by destruct y|].
  change (String.prefix (String a p) (String a (p ++ y)) = true).
  cbn [String.prefix]. destruct (ascii_dec a a); [exact IH | contradiction].
Qed.

Lemma is_messages_file_between (x : string) :
  Loader.is_messages_file ("messages_" ++ x ++ ".json") = true.
Proof.
  unfold Loader.is_messages_file.
  assert (Hprefix : String.prefix "messages_" ("messages_" ++ x ++ ".json") = true)
    by apply prefix_append.
  assert (Hsuffix : substring (String.length ("messages_" ++ x ++ ".json") - 5) 5
                      ("messages_" ++ x ++ ".json") = ".json")
    by exact (substring_tail ("messages_" ++ x) ".json").
  assert (Hlength : (14 <=? String.length ("messages_" ++ x ++ ".json"))%nat = true).
  { apply Nat.leb_le. rewrite !length_append. simpl. lia. }
  by rewrite Hprefix, Hsuffix, Hlength.
Qed.

(** X24.  The pattern [messages_*.json], by which the loader finds its message
    files, takes the final file of a scrape and every progress file of it as
    well, but not the media file. *)
Theorem progress_files_match_the_loader_pattern (timestamp : string) (n : nat) :
  Loader.is_messages_file ("messages_" ++ timestamp ++ ".json") = true
  /\ Loader.is_messages_file
       ("messages_" ++ timestamp ++ "_partial_" ++ str n ++ ".json") = true
  /\ Loader.is_messages_file ("media_info_" ++ timestamp ++ ".json") = false.
Proof.
  split; [apply is_messages_file_between|]. split; [|reflexivity].
  replace ("messages_" ++ timestamp ++ "_partial_" ++ str n ++ ".json")
    with ("messages_" ++ (timestamp ++ "_partial_" ++ str n) ++ ".json").
  - apply is_messages_file_between.
  - by rewrite !append_assoc.
Qed.

End ScrapingFacts.


(** ** The media generator *)

Module MediaFacts.
Import Py Json Posix TelegramService Media MediaScenarios.

Lemma lookup_store_ne (k key : string) (v : json) (d : list (string * json)) :
  k <> key -> lookup k (store key v d) = lookup k d.
Proof.
  intros Hne. induction d as [|[k' v'] d IH]; simpl.
  - destruct (String.eqb_spec key k); [congruence | reflexivity].
  - destruct (String.eqb_spec k' key) as [-> | Hk']; simpl.
    + destruct (String.eqb_spec key k); [congruence | reflexivity].
    + destruct (String.eqb_spec k' k); [reflexivity | exact IH].
Qed.

Lemma lookup_store_eq (key : string) (v : json) (d : list (string * json)) :
  lookup key (store key v d) = Some v.
Proof.
  induction d as [|[k' v'] d IH]; simpl.
  - by rewrite String.eqb_refl.
  - destruct (String.eqb_spec k' key) as [-> | Hk']; simpl.
    + by rewrite String.eqb_refl.
    + destruct (String.eqb_spec k' key); [congruence | exact IH].
Qed.

Lemma lookup_app (k : string) (a b : list (string * json)) :
  lookup k (a ++ b)
  = match lookup k a with Some v => Some v | None => lookup k b end.
Proof.
  induction a as [|[k' v'] a IH]; simpl; [reflexivity|].
  destruct (String.eqb k' k); [reflexivity | exact IH].
Qed.

Lemma lookup_optional_ne (k key : string) (v : option json) :
  k <> key -> lookup k (optional key v) = None.
Proof.
  intros Hne. destruct v; simpl; [|reflexivity].
  destruct (String.eqb_spec key k); [congruence | reflexivity].
Qed.

Lemma base_info_lookups (m : message) (t : media_type) (media : media_object) :
  lookup "media_type" (base_info m t media) = Some (JStr (type_name t))
  /\ lookup "file_path" (base_info m t media) = Some JNull
  /\ lookup "download_success" (base_info m t media) = None.
Proof.
  unfold base_info. split; [reflexivity|]. split; [reflexivity|].
  rewrite !lookup_app, !lookup_optional_ne by discriminate. reflexivity.
Qed.

(** What [_process_media] returns names the kind of media it was asked
    for, and tells in [file_path] whether the file is there: [file_path] is
    a string when [download_success] is true and [None] otherwise. *)
Lemma process_media_shape (fs : file_system) (m : message) (t : media_type)
    (download_path : option string) (media_info : list (string * json)) :
  _process_media fs m t download_path = Some media_info ->
  lookup "media_type" media_info = Some (JStr (type_name t))
  /\ ((lookup "download_success" media_info = Some (JBool true)
       /\ exists p, lookup "file_path" media_info = Some (JStr p))
      \/ (lookup "download_success" media_info <> Some (JBool true)
          /\ lookup "file_path" media_info = Some JNull)).
Proof.
  unfold _process_media, download_failed.
  destruct (attribute m t) as [[media|]|]; try discriminate.
  destruct (base_info_lookups m t media) as (Htype & Hpath & Hsuccess).
  generalize dependent (base_info m t media). intros base Htype Hpath Hsuccess H.
  repeat match type of H with
         | context [match ?x with _ => _ end] => destruct x
         end;
    try discriminate; injection H as <-.
  all: rewrite ?lookup_store_eq, ?(lookup_store_ne "media_type"),
         ?(lookup_store_ne "file_path"), ?lookup_store_eq by discriminate.
  all: split; [exact Htype|].
  all: first [ left; split; [reflexivity | by eexists]
             | right; split; [discriminate | exact Hpath]
             | right; split; [by rewrite Hsuccess | exact Hpath] ].
Qed.

(** X25.  [_process_media] reports a download as successful only for a file that
    is there: when the dictionary it returns has [download_success] true,
    [message.download_media] returned a path, [os.path.exists] held of it,
    and [file_path] is its absolute path. *)
Theorem reported_downloads_exist (fs : file_system) (m : message) (t : media_type)
    (download_path : option string) (media_info : list (string * json))
    (Hreturned : _process_media fs m t download_path = Some media_info)
    (Hsuccess : lookup "download_success" media_info = Some (JBool true)) :
  exists file_path,
    download_media m = Ok (Some file_path)
    /\ exists_ fs file_path = true
    /\ lookup "file_path" media_info = Some (JStr (abspath fs file_path)).
Proof.
  revert Hreturned Hsuccess. unfold _process_media, download_failed.
  destruct (attribute m t) as [[media|]|]; try discriminate.
  destruct (base_info_lookups m t media) as (_ & _ & Hnone).
  generalize dependent (base_info m t media). intros base Hnone H.
  repeat match type of H with
         | context [match ?x with _ => _ end] => destruct x eqn:?
         end;
    try discriminate; injection H as <-.
  all: rewrite ?lookup_store_eq, ?Hnone; try (intros ?; discriminate).
  all: intros _; eexists; split; [reflexivity|].
  all: match goal with
       | Hexists : _ && _ = true |- _ =>
           apply andb_true_iff in Hexists as [_ Hexists]
       end.
  all: split; [assumption|].
  all: by rewrite lookup_store_ne, lookup_store_eq.
Qed.

Lemma reported_downloads_exist_witness :
  exists file_path,
    download_media with_photo = Ok (Some file_path)
    /\ exists_ all_on_disk file_path = true
    /\ lookup "file_path"
         (store "download_success" (JBool true)
            (store "file_path"
               (JStr "/srv/week-7/data/raw/telegram_media/CheMed123/20250714_000000/photo_43.jpg")
               (base_info with_photo photo a_photo)))
       = Some (JStr (abspath all_on_disk file_path)).
Proof.
  apply (reported_downloads_exist all_on_disk with_photo photo (Some "media")).
  - reflexivity.
  - reflexivity.
Defined.

(** *** The generator *)

Lemma media_loop_length (fs : file_system) (limit : Z) (file_types : list string)
    (download_path : option string) (messages : list message) :
  forall media_count,
    (length (media_loop fs limit file_types download_path messages media_count)
     <= Z.to_nat (limit - media_count))%nat
    /\ (length (media_loop fs limit file_types download_path messages media_count)
        <= length messages)%nat.
Proof.
  induction messages as [|m messages IH]; intros media_count; simpl; [lia|].
  destruct (Z.leb_spec limit media_count); simpl; [lia|].
  destruct (IH media_count) as [? ?], (IH (media_count + 1)) as [? ?].
  destruct (media_of fs file_types download_path m) as [media_info|]; [|lia].
  destruct (bool_decide (media_info <> [])); simpl; lia.
Qed.

Lemma media_loop_Forall (P : list (string * json) -> Prop) (fs : file_system)
    (limit : Z) (file_types : list string) (download_path : option string)
    (messages : list message) :
  (forall m media_info,
      m ∈ messages ->
      media_of fs file_types download_path m = Some media_info -> P media_info) ->
  forall media_count,
    Forall P (media_loop fs limit file_types download_path messages media_count).
Proof.
  induction messages as [|m messages IH]; intros HP media_count; simpl;
    [constructor|].
  assert (Hrest : forall c,
             Forall P (media_loop fs limit file_types download_path messages c)).
  { apply IH. intros m' media_info Hm'. apply HP. by right. }
  destruct (limit <=? media_count); [constructor|].
  destruct (media_of fs file_types download_path m) as [media_info|] eqn:Hm;
    [|apply Hrest].
  destruct (bool_decide (media_info <> [])); [|apply Hrest].
  constructor; [|apply Hrest]. apply (HP m); [by left | exact Hm].
Qed.


Lemma yielded_Forall (P : list (string * json) -> Prop) (w : media_world)
    (s : service) (limit : Z) (file_types : option (list string))
    (download_path : option string) :
  (forall m media_info,
      m ∈ iter_messages w (Z.min (limit * 3) 100000) ->
      media_of (fs w) (default ["photo"; "document"; "video"] file_types)
        download_path m = Some media_info ->
      P media_info) ->
  Forall P (yielded (get_channel_media w s limit file_types download_path)).
Proof.
  intros HP. unfold get_channel_media. cbv zeta.
  destruct (raised _); [constructor|].
  destruct (get_entity w); [constructor|].
  destruct (_ ← given download_path; _); [constructor|].
  cbn [yielded]. by apply media_loop_Forall.
Qed.

(** X26.  [get_channel_media] yields at most [limit] media, and at most one for
    each message it was handed by [iter_messages], which it asks for
    [min(3 limit, 100000)] messages.  With a limit of zero or less it yields
    nothing. *)
Theorem limit_bounds_the_media (w : media_world) (s : service) (limit : Z)
    (file_types : option (list string)) (download_path : option string) :
  (length (yielded (get_channel_media w s limit file_types download_path))
   <= Z.to_nat limit)%nat
  /\ (length (yielded (get_channel_media w s limit file_types download_path))
      <= length (iter_messages w (Z.min (limit * 3) 100000)))%nat.
Proof.
  unfold get_channel_media. cbv zeta.
  destruct (raised _); [simpl; lia|].
  destruct (get_entity w); [simpl; lia|].
  destruct (_ ← given download_path; _); [simpl; lia|].
  cbn [yielded].
  destruct (media_loop_length (fs w) limit
              (default ["photo"; "document"; "video"] file_types) download_path
              (iter_messages w (Z.min (limit * 3) 100000)) 0) as [Hlimit Hmessages].
  rewrite Z.sub_0_r in Hlimit. split; assumption.
Qed.

(** X27.  The three kinds of media are tried in the order photo, document, video,
    and the test is [hasattr], not the value: for messages that have a
    [photo] attribute at all, as every message of Telethon has, a generator
    asked for photos yields photos only.  A document or a video of such a
    message is never looked at. *)
Theorem photo_attribute_hides_other_media (w : media_world) (s : service)
    (limit : Z) (file_types : option (list string)) (download_path : option string)
    (Hasked : "photo" ∈ default ["photo"; "document"; "video"] file_types)
    (Hphoto : forall n, Forall (fun m => is_Some (photo_of m)) (iter_messages w n)) :
  Forall (fun media_info => lookup "media_type" media_info = Some (JStr "photo"))
    (yielded (get_channel_media w s limit file_types download_path)).
Proof.
  apply yielded_Forall. intros m media_info Hm.
  assert (Hhas : is_Some (photo_of m)).
  { specialize (Hphoto (Z.min (limit * 3) 100000)).
    rewrite Forall_forall in Hphoto. by apply Hphoto. }
  unfold media_of. rewrite !bool_decide_eq_true_2 by assumption.
  cbn [andb]. intros Hprocessed.
  by destruct (process_media_shape _ _ _ _ _ Hprocessed) as [Htype _].
Qed.

Lemma photo_attribute_hides_other_media_witness :
  Forall (fun media_info => lookup "media_type" media_info = Some (JStr "photo"))
    (yielded (get_channel_media photos_lost {| client := true; _is_connected := true |}
                100 None (Some "media"))).
Proof.
  apply (photo_attribute_hides_other_media photos_lost
           {| client := true; _is_connected := true |} 100 None (Some "media")).
  - by left.
  - intros n. repeat constructor; by eexists.
Defined.

(** *** Media in a scrape *)




End MediaFacts.
